(** * The run-state projector of the pipeline monitoring client

    A shallow embedding of [transformRun] (ml-pipeline-ui/src/lib/types.ts) and
    of the timeline table built by [PhaseTimeline]
    (components/pipeline/PhaseTimeline.tsx), with the properties of the
    projection proved on it.

    Conventions of the embedding:
    - a JavaScript [number] is an IEEE 754 binary64 value, here a primitive
      [float]; a slot of a parsed JSON object that is typed [number] holds a
      number, [null], or nothing ([undefined]);
    - an object used as a map ([phase_timings]) is the list of its own
      properties in the order [Object.entries] enumerates them;
    - optional fields of an interface are [option]s; [loop_count], an integer
      counter of the backend, is a [Z];
    - the loop over [raw.errors] threads its two mutable variables ([phases],
      whose elements it updates in place, and [errorStrings]) as a pair. *)

From Stdlib Require Import Floats ZArith String Ascii List Bool Lia Permutation.
From Stdlib Require Import DecimalString DecimalPos DecimalZ.
Import ListNotations.

#[local] Open Scope string_scope.
#[local] Open Scope list_scope.

(* ------------------------------------------------------------------ *)
(** ** The fragment of JavaScript the projector uses                   *)
(* ------------------------------------------------------------------ *)

Module JS.

(** The content of a slot declared [number] in a parsed response. *)
Inductive value : Type :=
| undefined
| null
| num (x : float).

(** [typeof v === "number"] *)
Definition is_number (v : value) : bool :=
  match v with num _ => true | _ => false end.

(** [v ?? d], for a numeric default. *)
Definition nullish (v : value) (d : float) : float :=
  match v with num x => x | _ => d end.

(** [v != null && v > 0] *)
Definition positive (v : value) : bool :=
  match v with num x => PrimFloat.ltb 0 x | _ => false end.

(** [acc += v] on a numeric accumulator; the projector only reaches it
    behind [typeof v === "number"]. *)
Definition add_assign (acc : float) (v : value) : float :=
  match v with num x => PrimFloat.add acc x | _ => acc end.

(** An object read as a map: its own properties, in [Object.entries] order. *)
Definition object : Type := list (string * value).

(** [o[k]] *)
Fixpoint get (o : object) (k : string) : value :=
  match o with
  | [] => undefined
  | (k', v) :: rest => if String.eqb k' k then v else get rest k
  end.

(** [s.startsWith(p)] *)
Definition startsWith (s p : string) : bool := String.prefix p s.

(** [xs.indexOf(x)], counting from position [i]; [-1] when [x] is not found. *)
Fixpoint indexOf_from (xs : list string) (x : string) (i : Z) : Z :=
  match xs with
  | [] => (-1)%Z
  | y :: rest => if String.eqb y x then i else indexOf_from rest x (i + 1)%Z
  end.

Definition indexOf (xs : list string) (x : string) : Z := indexOf_from xs x 0%Z.

(** [xs.map((x, idx) => f(x, idx))], counting from position [i]. *)
Fixpoint mapi_from {A B : Type} (f : A -> Z -> B) (xs : list A) (i : Z) : list B :=
  match xs with
  | [] => []
  | x :: rest => f x i :: mapi_from f rest (i + 1)%Z
  end.

Definition mapi {A B : Type} (f : A -> Z -> B) (xs : list A) : list B :=
  mapi_from f xs 0%Z.

(** [xs.find(p)] followed by an in-place update [upd] of the element found:
    the first element satisfying [p] changes, nothing else does. *)
Fixpoint update_found {A : Type} (p : A -> bool) (upd : A -> A) (xs : list A) : list A :=
  match xs with
  | [] => []
  | x :: rest => if p x then upd x :: rest else x :: update_found p upd rest
  end.

(** A string is truthy when it is not empty. *)
Definition truthy (s : option string) : bool :=
  match s with
  | Some s => negb (String.eqb s EmptyString)
  | None => false
  end.

(** A lower-case hexadecimal digit. *)
Definition hex_digit (n : nat) : ascii :=
  match n with
  | 0 => "0" | 1 => "1" | 2 => "2" | 3 => "3" | 4 => "4" | 5 => "5"
  | 6 => "6" | 7 => "7" | 8 => "8" | 9 => "9" | 10 => "a" | 11 => "b"
  | 12 => "c" | 13 => "d" | 14 => "e" | _ => "f"
  end%char.

(** One code unit inside a JSON string literal (QuoteJSONString). *)
Definition quote_char (c : ascii) : string :=
  let n := nat_of_ascii c in
  if Nat.eqb n 34 then String "\" (String (ascii_of_nat 34) EmptyString)
  else if Nat.eqb n 92 then "\\"
  else if Nat.eqb n 8 then "\b"
  else if Nat.eqb n 12 then "\f"
  else if Nat.eqb n 10 then "\n"
  else if Nat.eqb n 13 then "\r"
  else if Nat.eqb n 9 then "\t"
  else if Nat.ltb n 32 then
    String "\" (String "u" (String "0" (String "0"
      (String (hex_digit (n / 16)) (String (hex_digit (n mod 16)) EmptyString)))))
  else String c EmptyString.

Fixpoint quote_body (s : string) : string :=
  match s with
  | EmptyString => EmptyString
  | String c rest => (quote_char c ++ quote_body rest)%string
  end.

(** [JSON.stringify(s)] for a string [s]. *)
Definition quote (s : string) : string :=
  String (ascii_of_nat 34) (quote_body s ++ String (ascii_of_nat 34) EmptyString)%string.

End JS.

(* ------------------------------------------------------------------ *)
(** ** Pipeline domain types                                           *)
(* ------------------------------------------------------------------ *)

Module PipelineStatus.
Inductive t : Type :=
| pending
| running
| completed
| completed_with_errors
| failed.

Definition eqb (a b : t) : bool :=
  match a, b with
  | pending, pending | running, running | completed, completed
  | completed_with_errors, completed_with_errors | failed, failed => true
  | _, _ => false
  end.
End PipelineStatus.

Module PhaseStatus.
Inductive t : Type :=
| pending
| running
| completed
| error
| will_rerun.
End PhaseStatus.

(** A [PhaseKey] is one of six string literals; at run time it is a string. *)
Abbreviation PhaseKey := string (only parsing).

Module PhaseInfo.
Record t : Type := mk {
  phase : PhaseKey;
  status : PhaseStatus.t;
  started_at : option string;
  completed_at : option string;
  duration_seconds : JS.value;
  error : option string
}.

(** [p.status = s] *)
Definition set_status (s : PhaseStatus.t) (p : t) : t :=
  mk (phase p) s (started_at p) (completed_at p) (duration_seconds p) (error p).
End PhaseInfo.

(** The per-phase result payloads are opaque to the projector, which only
    copies them: a payload is carried as its JSON text. *)
Inductive Payload : Type := payload (json : string).

Record TokenUsage : Type := {
  input_tokens : Z;
  output_tokens : Z;
  total_tokens : Z;
  llm_calls : Z
}.

(** An entry of [errors]: a bare string, an object [{ phase?, error? }], or
    any other value of a JSON array (null, a number, a boolean), which the
    declared type excludes and the projector skips.

    Of an object the projector reads the properties [phase] and [error] and the
    text [JSON.stringify] gives for the whole entry. That text depends on the
    entry's own key order and on properties the projector does not read, so the
    entry carries it beside the two properties. A property is [None] when it is
    absent or null. *)
Module ErrorEntry.
Record obj : Type := make {
  phase : option string;
  error : option string;
  json : string
}.

Inductive t : Type :=
| str (s : string)
| object (e : obj)
| other.

(** [JSON.stringify(e)] *)
Definition stringify (e : obj) : string := json e.

(** The JSON text of an object that has string properties only, [phase]
    written before [error]. *)
Definition literal_json (phase error : option string) : string :=
  let field (name : string) (v : option string) : list string :=
    match v with
    | Some s => [(JS.quote name ++ ":" ++ JS.quote s)%string]
    | None => []
    end in
  ("{" ++ String.concat "," (field "phase" phase ++ field "error" error)%list
       ++ "}")%string.

(** The entry parsed from that text. *)
Definition mk (phase error : option string) : obj :=
  make phase error (literal_json phase error).
End ErrorEntry.

(** Raw shape from the backend. *)
Module PipelineRunRaw.
Record t : Type := mk {
  pipeline_id : string;
  status : PipelineStatus.t;
  current_phase : option string;
  objectives : option string;
  phase_timings : option JS.object;
  loop_count : option Z;
  errors : option (list ErrorEntry.t);
  data_profile : option Payload;
  feature_engineering : option Payload;
  visualizations : option Payload;
  model : option Payload;
  evaluation : option Payload;
  critic_decisions : option (list Payload);
  token_usage : option TokenUsage
}.
End PipelineRunRaw.

(** Enriched shape used by the components. *)
Module PipelineRun.
Record t : Type := mk {
  pipeline_id : string;
  status : PipelineStatus.t;
  current_phase : option string;
  objectives : option string;
  phases : list PhaseInfo.t;
  loop_count : option Z;
  errors : option (list string);
  data_profile : option Payload;
  feature_engineering : option Payload;
  visualizations : option Payload;
  model : option Payload;
  evaluation : option Payload;
  critic_decisions : option (list Payload);
  token_usage : option TokenUsage
}.
End PipelineRun.

(** Phase ordering for deriving the phase list from [phase_timings]. *)
Definition PHASE_ORDER : list PhaseKey :=
  [ "data_profiling";
    "feature_engineering";
    "visualization";
    "model_training";
    "evaluation";
    "critic_review" ].

(* ------------------------------------------------------------------ *)
(** ** [transformRun]                                                  *)
(* ------------------------------------------------------------------ *)

Section TransformRun.

Variable raw : PipelineRunRaw.t.

(** [raw.phase_timings || {}] *)
Definition timings : JS.object :=
  match PipelineRunRaw.phase_timings raw with
  | Some o => o
  | None => []
  end.

(** The loop [for (const [k, v] of Object.entries(timings))] with its
    accumulator. *)
Fixpoint sum_critic (entries : JS.object) (criticTotal : float) : float :=
  match entries with
  | [] => criticTotal
  | (k, v) :: rest =>
      sum_critic rest
        (if JS.startsWith k "critic_review_" && JS.is_number v
         then JS.add_assign criticTotal v
         else criticTotal)
  end.

Definition criticTotal : float :=
  sum_critic timings (JS.nullish (JS.get timings "critic_review") 0%float).

(** [raw.current_phase ?? ""] *)
Definition currentPhase : string :=
  match PipelineRunRaw.current_phase raw with
  | Some p => p
  | None => EmptyString
  end.

Definition currentIdx : Z := JS.indexOf PHASE_ORDER currentPhase.

Definition isRunning : bool :=
  PipelineStatus.eqb (PipelineRunRaw.status raw) PipelineStatus.running.

Definition isFinalized : bool := String.eqb currentPhase "finalized".

(** [(raw.loop_count ?? 0) > 0] *)
Definition hasLooped : bool :=
  match PipelineRunRaw.loop_count raw with
  | Some n => (0 <? n)%Z
  | None => false
  end.

Definition isLooping : bool := isRunning && hasLooped && negb isFinalized.

Definition duration (key : PhaseKey) : JS.value :=
  if String.eqb key "critic_review"
  then (if PrimFloat.ltb 0 criticTotal then JS.num criticTotal else JS.undefined)
  else JS.get timings key.

Definition isCurrent (key : PhaseKey) : bool := String.eqb currentPhase key.

Definition criticDone (key : PhaseKey) : bool :=
  String.eqb key "critic_review" && isFinalized.

Definition hasRun (key : PhaseKey) : bool :=
  JS.positive (duration key) || criticDone key.

(** The status chosen by the callback of [PHASE_ORDER.map]. *)
Definition classify (key : PhaseKey) (idx : Z) : PhaseStatus.t :=
  if isCurrent key && isRunning then PhaseStatus.running
  else if hasRun key then
    if isLooping && (0 <=? currentIdx)%Z && (currentIdx <? idx)%Z
       && negb (String.eqb key "critic_review")
    then PhaseStatus.will_rerun
    else PhaseStatus.completed
  else PhaseStatus.pending.

(** The object the callback returns. *)
Definition phase_info (key : PhaseKey) (idx : Z) : PhaseInfo.t :=
  PhaseInfo.mk key (classify key idx) None None (duration key) None.

(** [const phases = PHASE_ORDER.map(...)], before the errors are read. *)
Definition classified_phases : list PhaseInfo.t := JS.mapi phase_info PHASE_ORDER.

End TransformRun.

(** The string pushed for an object entry. *)
Definition error_string (e : ErrorEntry.obj) : string :=
  let msg :=
    if JS.truthy (ErrorEntry.error e)
    then match ErrorEntry.error e with Some m => m | None => EmptyString end
    else ErrorEntry.stringify e in
  match ErrorEntry.phase e with
  | Some p => if JS.truthy (Some p) then ("[" ++ p ++ "] " ++ msg)%string else msg
  | None => msg
  end.

(** [const p = phases.find((ph) => ph.phase === tag); if (p) p.status = "error"] *)
Definition mark_error (tag : string) (phases : list PhaseInfo.t) : list PhaseInfo.t :=
  JS.update_found (fun ph => String.eqb (PhaseInfo.phase ph) tag)
                  (PhaseInfo.set_status PhaseStatus.error) phases.

(** One iteration of [for (const e of rawErrors)] on the state
    [(phases, errorStrings)]. *)
Definition error_step (st : list PhaseInfo.t * list string) (e : ErrorEntry.t)
  : list PhaseInfo.t * list string :=
  let (phases, errorStrings) := st in
  match e with
  | ErrorEntry.str s => (phases, errorStrings ++ [s])
  | ErrorEntry.object o =>
      let errorStrings' := errorStrings ++ [error_string o] in
      match ErrorEntry.phase o with
      | Some p => if JS.truthy (Some p)
                  then (mark_error p phases, errorStrings')
                  else (phases, errorStrings')
      | None => (phases, errorStrings')
      end
  | ErrorEntry.other => (phases, errorStrings)
  end.

Fixpoint error_loop (rawErrors : list ErrorEntry.t) (st : list PhaseInfo.t * list string)
  : list PhaseInfo.t * list string :=
  match rawErrors with
  | [] => st
  | e :: rest => error_loop rest (error_step st e)
  end.

(** [raw.errors || []] *)
Definition rawErrors (raw : PipelineRunRaw.t) : list ErrorEntry.t :=
  match PipelineRunRaw.errors raw with
  | Some es => es
  | None => []
  end.

(** Transform backend raw response into the enriched shape. *)
Definition transformRun (raw : PipelineRunRaw.t) : PipelineRun.t :=
  let (phases, errorStrings) := error_loop (rawErrors raw) (classified_phases raw, []) in
  PipelineRun.mk
    (PipelineRunRaw.pipeline_id raw)
    (PipelineRunRaw.status raw)
    (PipelineRunRaw.current_phase raw)
    (PipelineRunRaw.objectives raw)
    phases
    (PipelineRunRaw.loop_count raw)
    (if (0 <? length errorStrings)%nat then Some errorStrings else None)
    (PipelineRunRaw.data_profile raw)
    (PipelineRunRaw.feature_engineering raw)
    (PipelineRunRaw.visualizations raw)
    (PipelineRunRaw.model raw)
    (PipelineRunRaw.evaluation raw)
    (PipelineRunRaw.critic_decisions raw)
    (PipelineRunRaw.token_usage raw).

(* ------------------------------------------------------------------ *)
(** ** The timeline table of [PhaseTimeline]                           *)
(* ------------------------------------------------------------------ *)

Record PhaseMeta : Type := {
  key : PhaseKey;
  label : string;
  icon : string;
  description : string;
  color : string
}.

Definition PHASE_META : list PhaseMeta :=
  [ {| key := "data_profiling";
       label := "Data Profiler";
       icon := "scan-search";
       description := "Analyzing dataset structure, distributions, and quality";
       color := "from-violet-500 to-purple-600" |};
    {| key := "feature_engineering";
       label := "Feature Engineer";
       icon := "wrench";
       description := "Generating and transforming features for model training";
       color := "from-cyan-500 to-blue-600" |};
    {| key := "visualization";
       label := "Visualizer";
       icon := "bar-chart-3";
       description := "Creating exploratory data analysis visualizations";
       color := "from-emerald-500 to-green-600" |};
    {| key := "model_training";
       label := "Model Trainer";
       icon := "brain";
       description := "Training and comparing candidate ML models";
       color := "from-orange-500 to-amber-600" |};
    {| key := "evaluation";
       label := "Evaluator";
       icon := "check-circle-2";
       description := "Evaluating model performance and generalization";
       color := "from-rose-500 to-pink-600" |};
    {| key := "critic_review";
       label := "Critic";
       icon := "message-square-warning";
       description := "Reviewing results and deciding next action";
       color := "from-yellow-500 to-orange-600" |} ].

Module TimelineRow.
Record t : Type := mk {
  meta : PhaseMeta;
  status : PhaseStatus.t;
  duration : JS.value;
  error : option string;
  count : nat
}.
End TimelineRow.

(** [xs.length > 0 ? xs[xs.length - 1] : null] *)
Fixpoint last_or_null {A : Type} (xs : list A) : option A :=
  match xs with
  | [] => None
  | [x] => Some x
  | _ :: rest => last_or_null rest
  end.

(** The callback of [PHASE_META.map] in [PhaseTimeline]. *)
Definition timeline_row (phases : list PhaseInfo.t) (meta : PhaseMeta) : TimelineRow.t :=
  let matching := filter (fun p => String.eqb (PhaseInfo.phase p) (key meta)) phases in
  let last := last_or_null matching in
  TimelineRow.mk meta
    (match last with Some p => PhaseInfo.status p | None => PhaseStatus.pending end)
    (match last with Some p => PhaseInfo.duration_seconds p | None => JS.undefined end)
    (match last with Some p => PhaseInfo.error p | None => None end)
    (length matching).

Definition timeline (phases : list PhaseInfo.t) : list TimelineRow.t :=
  map (timeline_row phases) PHASE_META.

(* ------------------------------------------------------------------ *)
(** ** Vocabulary of the statements                                    *)
(* ------------------------------------------------------------------ *)

(** The status of the view of phase [k] in a phase list. *)
Definition phase_status (phases : list PhaseInfo.t) (k : PhaseKey) : option PhaseStatus.t :=
  option_map PhaseInfo.status
    (find (fun p => String.eqb (PhaseInfo.phase p) k) phases).

(** The duration of the view of phase [k] in a phase list. *)
Definition phase_duration (phases : list PhaseInfo.t) (k : PhaseKey) : option JS.value :=
  option_map PhaseInfo.duration_seconds
    (find (fun p => String.eqb (PhaseInfo.phase p) k) phases).

(** An entry of [errors] is an object whose phase tag is the non-empty [k]. *)
Definition tags (k : string) (e : ErrorEntry.t) : bool :=
  match e with
  | ErrorEntry.str _ => false
  | ErrorEntry.object o =>
      match ErrorEntry.phase o with
      | Some p => JS.truthy (Some p) && String.eqb p k
      | None => false
      end
  | ErrorEntry.other => false
  end.

(** Some entry of the error list tags phase [k]. *)
Definition tagged (es : list ErrorEntry.t) (k : string) : bool := existsb (tags k) es.

(** The flattened error list of a run view, empty when the field is absent. *)
Definition flattened (run : PipelineRun.t) : list string :=
  match PipelineRun.errors run with
  | Some l => l
  | None => []
  end.

(** What one entry of [errors] adds to [errorStrings]: one string, or
    nothing when the entry is skipped. *)
Definition contributed (e : ErrorEntry.t) : list string :=
  match e with
  | ErrorEntry.str s => [s]
  | ErrorEntry.object o => [error_string o]
  | ErrorEntry.other => []
  end.

(** The effect of one entry, then of a whole error list, on one phase view. *)
Definition mark_one (e : ErrorEntry.t) (p : PhaseInfo.t) : PhaseInfo.t :=
  if tags (PhaseInfo.phase p) e then PhaseInfo.set_status PhaseStatus.error p else p.

Definition mark_all (es : list ErrorEntry.t) (p : PhaseInfo.t) : PhaseInfo.t :=
  if tagged es (PhaseInfo.phase p) then PhaseInfo.set_status PhaseStatus.error p else p.

(** The string of an object entry in the words of the specification, with
    emptiness tested on both properties: its message when it has one that is not
    empty, the text of [JSON.stringify] otherwise, behind the prefix "[phase] "
    when it has a phase tag that is not empty. *)
Definition object_text (o : ErrorEntry.obj) : string :=
  let msg :=
    match ErrorEntry.error o with
    | Some m => if String.eqb m EmptyString then ErrorEntry.stringify o else m
    | None => ErrorEntry.stringify o
    end in
  match ErrorEntry.phase o with
  | Some p => if String.eqb p EmptyString then msg else ("[" ++ p ++ "] " ++ msg)%string
  | None => msg
  end.

(** The same without the emptiness tests: fallback exactly when the message
    is absent, prefix exactly when the phase tag is present. *)
Definition object_text_as_claimed (o : ErrorEntry.obj) : string :=
  let msg :=
    match ErrorEntry.error o with
    | Some m => m
    | None => ErrorEntry.stringify o
    end in
  match ErrorEntry.phase o with
  | Some p => ("[" ++ p ++ "] " ++ msg)%string
  | None => msg
  end.

(** What one entry contributes to the flattened list: a bare string itself,
    an object its text, any other entry nothing. *)
Definition rendered (e : ErrorEntry.t) : list string :=
  match e with
  | ErrorEntry.str s => [s]
  | ErrorEntry.object o => [object_text o]
  | ErrorEntry.other => []
  end.

(** An entry is a bare string or an object. *)
Definition is_message (e : ErrorEntry.t) : bool :=
  match e with
  | ErrorEntry.other => false
  | _ => true
  end.

(** The numeric timings filed under a key with prefix "critic_review_", in
    enumeration order. *)
Fixpoint composite_timings (o : JS.object) : list float :=
  match o with
  | [] => []
  | (k, JS.num x) :: rest =>
      if String.prefix "critic_review_" k then x :: composite_timings rest
      else composite_timings rest
  | _ :: rest => composite_timings rest
  end.

(** The bare "critic_review" timing, zero when absent. *)
Definition bare_critic_timing (o : JS.object) : float :=
  match JS.get o "critic_review" with
  | JS.num x => x
  | _ => 0%float
  end.

(** The bare timing plus the composite timings, added one after the other. *)
Definition aggregate_critic (o : JS.object) : float :=
  fold_left PrimFloat.add (composite_timings o) (bare_critic_timing o).

(** The aggregated duration of a phase in seconds: the aggregate for the
    re-enterable phase, the bare timing (zero when absent) for the others. *)
Definition aggregated (raw : PipelineRunRaw.t) (k : PhaseKey) : float :=
  if String.eqb k "critic_review" then aggregate_critic (timings raw)
  else match JS.get (timings raw) k with
       | JS.num x => x
       | _ => 0%float
       end.

(** The number of recorded occurrences of the re-enterable phase: the timing
    entries filed under its bare or composite keys. *)
Definition critic_occurrences (o : JS.object) : nat :=
  length (filter (fun kv => (String.eqb (fst kv) "critic_review"
                             || String.prefix "critic_review_" (fst kv))
                            && JS.is_number (snd kv)) o).

(** The count the timeline shows for phase [k]. *)
Definition timeline_count (rows : list TimelineRow.t) (k : PhaseKey) : option nat :=
  option_map TimelineRow.count
    (find (fun r => String.eqb (key (TimelineRow.meta r)) k) rows).

(** The duration shown for a phase, in the words of the specification and
    with the guard of the code: the aggregate of the re-enterable phase when it
    is above zero and nothing otherwise; the bare timing of any other phase. *)
Definition displayed_duration (raw : PipelineRunRaw.t) (k : PhaseKey) : JS.value :=
  if String.eqb k "critic_review" then
    if PrimFloat.ltb 0 (aggregate_critic (timings raw))
    then JS.num (aggregate_critic (timings raw))
    else JS.undefined
  else JS.get (timings raw) k.

(** The status a view ends with: [error] when an entry tags its phase, the
    classified status otherwise. *)
Definition overridden (es : list ErrorEntry.t) (k : PhaseKey) (s : PhaseStatus.t)
  : PhaseStatus.t :=
  if tagged es k then PhaseStatus.error else s.

(* ------------------------------------------------------------------ *)
(** ** Sample snapshots                                                *)
(* ------------------------------------------------------------------ *)

(** A snapshot with no payloads. *)
Definition snapshot (st : PipelineStatus.t) (cp : option string) (tm : option JS.object)
           (lc : option Z) (es : option (list ErrorEntry.t)) : PipelineRunRaw.t :=
  PipelineRunRaw.mk "run-1" st cp None tm lc es None None None None None None None.

(** Two critic iterations, no bare key. *)
Definition two_critic_rounds : PipelineRunRaw.t :=
  snapshot PipelineStatus.running (Some "evaluation")
    (Some [("critic_review_1", JS.num 2.0%float); ("critic_review_2", JS.num 3.5%float)])
    (Some 1%Z) None.

(** The critic has sent the run back to feature engineering. *)
Definition looped_back : PipelineRunRaw.t :=
  snapshot PipelineStatus.running (Some "feature_engineering")
    (Some [("data_profiling", JS.num 1.5%float);
           ("feature_engineering", JS.num 2.25%float);
           ("visualization", JS.num 3.0%float);
           ("model_training", JS.num 4.5%float);
           ("evaluation", JS.num 0.5%float);
           ("critic_review_1", JS.num 2.0%float)])
    (Some 1%Z) None.

(** Evaluation is running, has a recorded duration, and has failed. *)
Definition failed_evaluation : PipelineRunRaw.t :=
  snapshot PipelineStatus.running (Some "evaluation")
    (Some [("evaluation", JS.num 1.5%float)])
    None
    (Some [ErrorEntry.object (ErrorEntry.mk (Some "evaluation") (Some "divide by zero"))]).

(** A finished run whose critic has one recorded duration. *)
Definition finalized_run : PipelineRunRaw.t :=
  snapshot PipelineStatus.completed (Some "finalized")
    (Some [("critic_review", JS.num 4.0%float)])
    (Some 2%Z) None.

(** A zero entry for data profiling and nothing else. *)
Definition zero_profiling : PipelineRunRaw.t :=
  snapshot PipelineStatus.running None
    (Some [("data_profiling", JS.num 0%float)])
    None None.

(** A looping run whose current phase is not a canonical one. *)
Definition unknown_phase : PipelineRunRaw.t :=
  snapshot PipelineStatus.running (Some "warmup")
    (Some [("data_profiling", JS.num 1.5%float); ("visualization", JS.num 3.0%float)])
    (Some 1%Z) None.

(** An error object whose phase tag is the empty string, and one whose
    message is the empty string. *)
Definition empty_fields : PipelineRunRaw.t :=
  snapshot PipelineStatus.failed None None None
    (Some [ErrorEntry.object (ErrorEntry.mk (Some EmptyString) (Some "boom"));
           ErrorEntry.object (ErrorEntry.mk (Some "evaluation") (Some EmptyString))]).

(** An error list that also holds values that are neither strings nor
    objects. *)
Definition stray_entries : PipelineRunRaw.t :=
  snapshot PipelineStatus.failed None None None
    (Some [ErrorEntry.other; ErrorEntry.other; ErrorEntry.str "x"]).

(** Explicit zero entries for the critic and for data profiling. *)
Definition zero_critic : PipelineRunRaw.t :=
  snapshot PipelineStatus.running (Some "evaluation")
    (Some [("data_profiling", JS.num 0%float); ("critic_review", JS.num 0%float)])
    None None.

(** A fresh run: no timings, no errors. *)
Definition fresh_run : PipelineRunRaw.t :=
  snapshot PipelineStatus.pending None None None None.

(* ------------------------------------------------------------------ *)
(** ** Consumers of the projected run                                  *)
(* ------------------------------------------------------------------ *)

(** [s || d] for an optional string [s]. *)
Definition or_default (s : option string) (d : string) : string :=
  match s with
  | Some v => if JS.truthy (Some v) then v else d
  | None => d
  end.

(** PipelineGraph.tsx: the nodes of the topology graph (the icon, a React
    element, is left out). *)
Module GraphNode.
Inductive kind : Type := start | finish | phase | decision.

Record t : Type := mk {
  id : string;
  label : string;
  phaseKey : option string;
  x : Z;
  y : Z;
  type : kind
}.
End GraphNode.

Definition NODES : list GraphNode.t :=
  [ GraphNode.mk "start" "START" None 300 30 GraphNode.start;
    GraphNode.mk "dp" "Data Profiler" (Some "data_profiling") 300 110 GraphNode.phase;
    GraphNode.mk "fe" "Feature Engineer" (Some "feature_engineering") 300 190 GraphNode.phase;
    GraphNode.mk "viz" "Visualizer" (Some "visualization") 300 270 GraphNode.phase;
    GraphNode.mk "mt" "Model Trainer" (Some "model_training") 300 350 GraphNode.phase;
    GraphNode.mk "eval" "Evaluator" (Some "evaluation") 300 430 GraphNode.phase;
    GraphNode.mk "critic" "Critic" (Some "critic_review") 300 510 GraphNode.decision;
    GraphNode.mk "end" "END" None 300 600 GraphNode.finish ].

(** PipelineGraph.tsx: the status the graph shows for a phase key. *)
Definition getPhaseStatus (phaseKey : option string) (phases : list PhaseInfo.t)
           (pipelineStatus : string) : PhaseStatus.t :=
  match phaseKey with
  | None => PhaseStatus.pending
  | Some k =>
      if negb (JS.truthy (Some k)) then PhaseStatus.pending
      else
        let matching := filter (fun p => String.eqb (PhaseInfo.phase p) k) phases in
        match last_or_null matching with
        | None => PhaseStatus.pending
        | Some last => PhaseInfo.status last
        end
  end.

(** The state [NODES.forEach] stores under [n.id]. *)
Definition node_state (phases : list PhaseInfo.t) (pipelineStatus : string)
           (n : GraphNode.t) : PhaseStatus.t :=
  match GraphNode.type n with
  | GraphNode.start =>
      if negb (String.eqb pipelineStatus "pending")
      then PhaseStatus.completed else PhaseStatus.running
  | GraphNode.finish =>
      if String.eqb pipelineStatus "completed"
         || String.eqb pipelineStatus "completed_with_errors"
      then PhaseStatus.completed else PhaseStatus.pending
  | _ => getPhaseStatus (GraphNode.phaseKey n) phases pipelineStatus
  end.

(** [nodeStates]: one property per node, in the order of [NODES], whose ids
    are pairwise distinct. *)
Definition nodeStates (phases : list PhaseInfo.t) (pipelineStatus : string)
  : list (string * PhaseStatus.t) :=
  map (fun n => (GraphNode.id n, node_state phases pipelineStatus n)) NODES.

(** page.tsx: the effect that selects the latest completed phase; the result
    is the active phase after the effect has run. *)
Definition auto_select (run : option PipelineRun.t) (activePhase : option string)
  : option string :=
  match run with
  | None => activePhase
  | Some r =>
      let completed :=
        map PhaseInfo.phase
            (filter (fun p => match PhaseInfo.status p with
                              | PhaseStatus.completed => true
                              | _ => false
                              end)
                    (PipelineRun.phases r)) in
      if (0 <? length completed)%nat && negb (JS.truthy activePhase)
      then last_or_null completed
      else activePhase
  end.

(** ResultsPanel.tsx: the phases that have data, in the order they are
    pushed. An object is truthy whenever it is present. *)
Definition available (run : PipelineRun.t) : list string :=
  let present (o : option Payload) : bool :=
    match o with Some _ => true | None => false end in
  let a0 : list string := [] in
  let a1 := if present (PipelineRun.data_profile run) then a0 ++ ["data_profiling"] else a0 in
  let a2 :=
    if present (PipelineRun.feature_engineering run) then a1 ++ ["feature_engineering"] else a1 in
  let a3 := if present (PipelineRun.visualizations run) then a2 ++ ["visualization"] else a2 in
  let a4 := if present (PipelineRun.model run) then a3 ++ ["model_training"] else a3 in
  let a5 := if present (PipelineRun.evaluation run) then a4 ++ ["evaluation"] else a4 in
  match PipelineRun.critic_decisions run with
  | Some l => if (0 <? length l)%nat then a5 ++ ["critic_review"] else a5
  | None => a5
  end.

(** [xs.includes(x)] *)
Definition includes (xs : list string) (x : string) : bool :=
  existsb (fun y => String.eqb y x) xs.

(** ResultsPanel.tsx: the tab that is shown. *)
Definition selected (run : PipelineRun.t) (activePhase : option string) : option string :=
  match activePhase with
  | Some a =>
      if JS.truthy (Some a) && includes (available run) a then Some a
      else hd_error (available run)
  | None => hd_error (available run)
  end.

(** ModelPanel.tsx: a candidate of the model comparison. *)
Module ModelCandidate.
Record t : Type := mk {
  name : option string;
  model_name : option string;
  algorithm : option string;
  accuracy : JS.value;
  precision : JS.value;
  recall : JS.value;
  f1 : JS.value;
  cv_mean : JS.value
}.
End ModelCandidate.

Definition getCandidateName (c : ModelCandidate.t) : string :=
  or_default (ModelCandidate.name c)
    (or_default (ModelCandidate.model_name c)
       (or_default (ModelCandidate.algorithm c) "Unknown")).

Module ModelResult.
Record t : Type := mk {
  best_model_name : option string;
  candidates : option (list ModelCandidate.t);
  feature_importance : option JS.object
}.
End ModelResult.

(** ModelPanel.tsx: [candidates.find(...) || candidates[0]]. *)
Definition best_candidate (model : ModelResult.t) : option ModelCandidate.t :=
  let candidates :=
    match ModelResult.candidates model with Some l => l | None => [] end in
  let bestName := or_default (ModelResult.best_model_name model) EmptyString in
  match find (fun c => String.eqb (getCandidateName c) bestName) candidates with
  | Some c => Some c
  | None => hd_error candidates
  end.

(** A failed run with a run-level message and an entry tagged with a phase
    that is not canonical. *)
Definition run_level_errors : PipelineRunRaw.t :=
  snapshot PipelineStatus.failed (Some "model_training")
    (Some [("data_profiling", JS.num 1.5%float)])
    None
    (Some [ErrorEntry.str "backend unavailable";
           ErrorEntry.object (ErrorEntry.mk (Some "deployment") (Some "no target"))]).

(** Two snapshots with the same payloads (a data profile and a model) at
    different moments of the run. *)
Definition profiled_running : PipelineRunRaw.t :=
  PipelineRunRaw.mk "run-2" PipelineStatus.running (Some "evaluation") None
    (Some [("data_profiling", JS.num 1.5%float)]) None None
    (Some (payload "{}")) None None (Some (payload "{}")) None None None.

Definition profiled_failed : PipelineRunRaw.t :=
  PipelineRunRaw.mk "run-2" PipelineStatus.failed None None None (Some 3%Z)
    (Some [ErrorEntry.str "out of memory"])
    (Some (payload "{}")) None None (Some (payload "{}")) None None None.

(** A model result that names no best model. *)
Definition unnamed_best : ModelResult.t :=
  ModelResult.mk None
    (Some [ModelCandidate.mk None (Some "random_forest") None
             JS.undefined JS.undefined JS.undefined JS.undefined JS.undefined;
           ModelCandidate.mk (Some "xgboost") None None
             JS.undefined JS.undefined JS.undefined JS.undefined JS.undefined])
    None.

(** [String(n)] for an integer [n]: its decimal digits, behind a minus sign
    when it is negative. *)
Definition number_text (n : Z) : string := NilZero.string_of_int (Z.to_int n).

(** PipelineControls.tsx: the elapsed time, a whole number of seconds (the
    hook computes it with [Math.floor]), as minutes and seconds. On integers
    [Math.floor(s / 60)] is the quotient rounded down and [s % 60] the remainder
    with the sign of [s]. *)
Definition formatElapsed (s : Z) : string :=
  let m := (s / 60)%Z in
  let sec := Z.rem s 60 in
  if (0 <? m)%Z
  then (number_text m ++ "m " ++ number_text sec ++ "s")%string
  else (number_text sec ++ "s")%string.

(** A reader of leading decimal digits, and with it a reader of the texts
    [formatElapsed] writes; they serve the proofs only. *)
Definition digit_of (c : ascii) : option (Decimal.uint -> Decimal.uint) :=
  match c with
  | "0" => Some Decimal.D0 | "1" => Some Decimal.D1 | "2" => Some Decimal.D2
  | "3" => Some Decimal.D3 | "4" => Some Decimal.D4 | "5" => Some Decimal.D5
  | "6" => Some Decimal.D6 | "7" => Some Decimal.D7 | "8" => Some Decimal.D8
  | "9" => Some Decimal.D9 | _ => None
  end%char.

Fixpoint read_digits (s : string) : Decimal.uint * string :=
  match s with
  | EmptyString => (Decimal.Nil, EmptyString)
  | String c rest =>
      match digit_of c with
      | Some f => let (d, r) := read_digits rest in (f d, r)
      | None => (Decimal.Nil, s)
      end
  end.

Definition read_elapsed (t : string) : option Z :=
  let (d1, r1) := read_digits t in
  match r1 with
  | String "s" EmptyString => Some (Z.of_int (Decimal.Pos d1))
  | String "m" (String " " r2) =>
      let (d2, r3) := read_digits r2 in
      if String.eqb r3 "s"
      then Some (60 * Z.of_int (Decimal.Pos d1) + Z.of_int (Decimal.Pos d2))%Z
      else None
  | _ => None
  end.

(** EvaluationPanel.tsx: the evaluation payload as the panel reads it. *)
Module Evaluation.
Record t : Type := mk {
  metrics : option JS.object;
  classification_report : option string;
  summary : option string;
  recommendations : option (list string);
  overfitting_risk : option string;
  test_metrics : option JS.object;
  cv_mean : JS.value;
  cv_std : JS.value
}.
End Evaluation.

(** [o[k] = v]: an existing property keeps its place, a new one goes last
    (the keys here are metric names, not array indices). *)
Fixpoint set_property (o : JS.object) (k : string) (v : JS.value) : JS.object :=
  match o with
  | [] => [(k, v)]
  | (k', v') :: rest =>
      if String.eqb k' k then (k', v) :: rest else (k', v') :: set_property rest k v
  end.

(** [k in o], for own properties. *)
Definition has_property (o : JS.object) (k : string) : bool :=
  existsb (fun kv => String.eqb (fst kv) k) o.

(** The properties of [source] spread into [target], one after the other. *)
Definition spread (target source : JS.object) : JS.object :=
  fold_left (fun t kv => set_property t (fst kv) (snd kv)) source target.

(** [v != null] *)
Definition not_nullish (v : JS.value) : bool :=
  match v with
  | JS.num _ => true
  | _ => false
  end.

(** EvaluationPanel.tsx: the merged metrics. *)
Definition rawMetrics (evaluation : Evaluation.t) : JS.object :=
  let or_empty (o : option JS.object) : JS.object :=
    match o with Some m => m | None => [] end in
  let m0 := spread (spread [] (or_empty (Evaluation.test_metrics evaluation)))
                   (or_empty (Evaluation.metrics evaluation)) in
  let m1 := if not_nullish (Evaluation.cv_mean evaluation)
            then set_property m0 "cv_mean" (Evaluation.cv_mean evaluation) else m0 in
  if not_nullish (Evaluation.cv_std evaluation)
  then set_property m1 "cv_std" (Evaluation.cv_std evaluation) else m1.

(** An evaluation whose two metric maps disagree on accuracy. *)
Definition two_metric_maps : Evaluation.t :=
  Evaluation.mk
    (Some [("accuracy", JS.num 0.875%float)]) None None None None
    (Some [("accuracy", JS.num 0.5%float); ("cv_mean", JS.num 0.25%float);
           ("recall", JS.num 0.75%float)])
    (JS.num 0.625%float) JS.null.

(** [s] is the status of the last entry of [phases] for phase [k], or
    [pending] when [phases] has no entry for [k]. *)
Definition status_of_last_entry (phases : list PhaseInfo.t) (k : PhaseKey)
           (s : PhaseStatus.t) : Prop :=
  (Forall (fun q => PhaseInfo.phase q <> k) phases /\ s = PhaseStatus.pending)
  \/ exists before p after,
       phases = before ++ p :: after
       /\ PhaseInfo.phase p = k
       /\ Forall (fun q => PhaseInfo.phase q <> k) after
       /\ s = PhaseInfo.status p.

(** A phase list in which evaluation has two entries. *)
Definition repeated_entries : list PhaseInfo.t :=
  [ PhaseInfo.mk "evaluation" PhaseStatus.completed None None (JS.num 1.5%float) None;
    PhaseInfo.mk "critic_review" PhaseStatus.completed None None (JS.num 2.0%float) None;
    PhaseInfo.mk "evaluation" PhaseStatus.running None None JS.undefined None ].

(** A model result with two candidates of the same name. *)
Definition twin_candidates : ModelResult.t :=
  ModelResult.mk (Some "rf")
    (Some [ModelCandidate.mk (Some "xgboost") None None
             JS.undefined JS.undefined JS.undefined JS.undefined JS.undefined;
           ModelCandidate.mk (Some "rf") None None
             (JS.num 0.5%float) JS.undefined JS.undefined JS.undefined JS.undefined;
           ModelCandidate.mk None (Some "rf") None
             (JS.num 0.75%float) JS.undefined JS.undefined JS.undefined JS.undefined])
    None.

(** The snapshot [raw] with its timings replaced. *)
Definition with_timings (raw : PipelineRunRaw.t) (tm : option JS.object)
  : PipelineRunRaw.t :=
  PipelineRunRaw.mk
    (PipelineRunRaw.pipeline_id raw) (PipelineRunRaw.status raw)
    (PipelineRunRaw.current_phase raw) (PipelineRunRaw.objectives raw)
    tm (PipelineRunRaw.loop_count raw) (PipelineRunRaw.errors raw)
    (PipelineRunRaw.data_profile raw) (PipelineRunRaw.feature_engineering raw)
    (PipelineRunRaw.visualizations raw) (PipelineRunRaw.model raw)
    (PipelineRunRaw.evaluation raw) (PipelineRunRaw.critic_decisions raw)
    (PipelineRunRaw.token_usage raw).

(** The snapshot [raw] with its error list replaced. *)
Definition with_errors (raw : PipelineRunRaw.t) (es : option (list ErrorEntry.t))
  : PipelineRunRaw.t :=
  PipelineRunRaw.mk
    (PipelineRunRaw.pipeline_id raw) (PipelineRunRaw.status raw)
    (PipelineRunRaw.current_phase raw) (PipelineRunRaw.objectives raw)
    (PipelineRunRaw.phase_timings raw) (PipelineRunRaw.loop_count raw)
    es
    (PipelineRunRaw.data_profile raw) (PipelineRunRaw.feature_engineering raw)
    (PipelineRunRaw.visualizations raw) (PipelineRunRaw.model raw)
    (PipelineRunRaw.evaluation raw) (PipelineRunRaw.critic_decisions raw)
    (PipelineRunRaw.token_usage raw).

(* ------------------------------------------------------------------ *)
(** ** Lemmas on the JavaScript fragment                               *)
(* ------------------------------------------------------------------ *)

Section JSFacts.

(** A number equal to zero (either zero of IEEE 754) is not above zero. *)
Lemma zero_not_above_zero (x : float) :
  PrimFloat.eqb x 0 = true -> PrimFloat.ltb 0 x = false.
Proof.
  rewrite FloatAxioms.eqb_spec, FloatAxioms.ltb_spec.
  change (Prim2SF 0) with (S754_zero false).
  destruct (Prim2SF x) as [s | s | | s m e]; try destruct s; cbn; congruence.
Qed.

Lemma indexOf_from_absent (xs : list string) (x : string) (i : Z) :
  ~ In x xs -> JS.indexOf_from xs x i = (-1)%Z.
Proof.
  revert i; induction xs as [| y rest IH]; intros i Hx; cbn; [reflexivity |].
  destruct (String.eqb_spec y x) as [-> | _].
  - exfalso; apply Hx; now left.
  - apply IH; intro Hin; apply Hx; now right.
Qed.

Lemma indexOf_from_nth (xs : list string) (x : string) (n : nat) (i : Z) :
  NoDup xs -> nth_error xs n = Some x ->
  JS.indexOf_from xs x i = (i + Z.of_nat n)%Z.
Proof.
  revert n i; induction xs as [| y rest IH]; intros n i Hnd Hn.
  - destruct n; discriminate.
  - inversion Hnd as [| ? ? Hy Hrest]; subst; cbn.
    destruct n as [| n]; cbn in Hn.
    + injection Hn as ->; rewrite String.eqb_refl; lia.
    + destruct (String.eqb_spec y x) as [-> | _].
      * exfalso; apply Hy; eapply nth_error_In; eassumption.
      * rewrite (IH n (i + 1)%Z Hrest Hn); lia.
Qed.

Lemma indexOf_from_found (xs : list string) (x : string) (i : Z) :
  (0 <= i)%Z -> (0 <= JS.indexOf_from xs x i)%Z ->
  exists n, nth_error xs n = Some x /\ JS.indexOf_from xs x i = (i + Z.of_nat n)%Z.
Proof.
  revert i; induction xs as [| y rest IH]; intros i Hi Hfound; cbn in *; [lia |].
  destruct (String.eqb_spec y x) as [-> | _].
  - exists 0%nat; split; [reflexivity | lia].
  - destruct (IH (i + 1)%Z ltac:(lia) Hfound) as (n & Hn & Hv).
    exists (S n); split; [exact Hn | lia].
Qed.

(** On a list whose elements [p] singles out at most once, updating the
    element found is a pointwise update. *)
Lemma update_found_map {A K : Type} (name : A -> K) (p : A -> bool) (upd : A -> A)
      (xs : list A) :
  NoDup (map name xs) ->
  (forall a b, p a = true -> p b = true -> name a = name b) ->
  JS.update_found p upd xs = map (fun a => if p a then upd a else a) xs.
Proof.
  intros Hnd Hp; induction xs as [| x rest IH]; cbn; [reflexivity |].
  inversion Hnd as [| ? ? Hx Hrest]; subst.
  destruct (p x) eqn:Px.
  - f_equal. symmetry. rewrite <- (map_id rest) at 2. apply map_ext_in.
    intros b Hb. destruct (p b) eqn:Pb; [| reflexivity].
    exfalso; apply Hx. rewrite (Hp x b Px Pb). now apply in_map.
  - f_equal; now apply IH.
Qed.

End JSFacts.

(* ------------------------------------------------------------------ *)
(** ** The loop over the error entries                                 *)
(* ------------------------------------------------------------------ *)

Section ErrorLoop.

Lemma mark_one_phase (e : ErrorEntry.t) (p : PhaseInfo.t) :
  PhaseInfo.phase (mark_one e p) = PhaseInfo.phase p.
Proof. unfold mark_one; now destruct (tags _ e). Qed.

Lemma mark_all_phase (es : list ErrorEntry.t) (p : PhaseInfo.t) :
  PhaseInfo.phase (mark_all es p) = PhaseInfo.phase p.
Proof. unfold mark_all; now destruct (tagged es _). Qed.

Lemma mark_all_duration (es : list ErrorEntry.t) (p : PhaseInfo.t) :
  PhaseInfo.duration_seconds (mark_all es p) = PhaseInfo.duration_seconds p.
Proof. unfold mark_all; now destruct (tagged es _). Qed.

Lemma mark_all_cons (e : ErrorEntry.t) (es : list ErrorEntry.t) (p : PhaseInfo.t) :
  mark_all es (mark_one e p) = mark_all (e :: es) p.
Proof.
  unfold mark_all, mark_one, tagged; cbn [existsb].
  destruct (tags (PhaseInfo.phase p) e) eqn:He; cbn [orb].
  - cbn [PhaseInfo.set_status PhaseInfo.phase].
    now destruct (existsb _ es).
  - reflexivity.
Qed.

Lemma mark_error_map (tag : string) (ps : list PhaseInfo.t) :
  NoDup (map PhaseInfo.phase ps) ->
  mark_error tag ps
  = map (fun p => if String.eqb (PhaseInfo.phase p) tag
                  then PhaseInfo.set_status PhaseStatus.error p else p) ps.
Proof.
  intros Hnd; unfold mark_error.
  apply (update_found_map PhaseInfo.phase); [exact Hnd |].
  intros a b Ha Hb.
  apply String.eqb_eq in Ha, Hb; congruence.
Qed.

Lemma error_step_spec (ps : list PhaseInfo.t) (acc : list string) (e : ErrorEntry.t) :
  NoDup (map PhaseInfo.phase ps) ->
  error_step (ps, acc) e = (map (mark_one e) ps, acc ++ contributed e).
Proof.
  assert (Hid : forall f : PhaseInfo.t -> PhaseInfo.t, (forall p, f p = p) -> ps = map f ps).
  { intros f Hf; rewrite <- (map_id ps) at 1; apply map_ext; intros p; now rewrite Hf. }
  intros Hnd; destruct e as [s | o |]; cbn [error_step contributed].
  - f_equal; now apply Hid.
  - unfold mark_one, tags.
    destruct (ErrorEntry.phase o) as [t |] eqn:Ht.
    + destruct (JS.truthy (Some t)) eqn:Tt; cbn [andb].
      * rewrite mark_error_map by exact Hnd.
        f_equal. apply map_ext; intros p.
        now rewrite (String.eqb_sym (PhaseInfo.phase p) t).
      * f_equal; now apply Hid.
    + f_equal; now apply Hid.
  - rewrite app_nil_r; f_equal; now apply Hid.
Qed.

Lemma error_loop_spec (es : list ErrorEntry.t) (ps : list PhaseInfo.t) (acc : list string) :
  NoDup (map PhaseInfo.phase ps) ->
  error_loop es (ps, acc) = (map (mark_all es) ps, acc ++ flat_map contributed es).
Proof.
  revert ps acc; induction es as [| e rest IH]; intros ps acc Hnd; cbn [error_loop].
  - cbn [flat_map]; rewrite app_nil_r. f_equal.
    rewrite <- (map_id ps) at 1. now apply map_ext.
  - rewrite error_step_spec by exact Hnd.
    rewrite IH.
    + rewrite map_map, <- app_assoc. cbn [flat_map]. f_equal.
      apply map_ext; intros p; apply mark_all_cons.
    + rewrite map_map.
      erewrite map_ext; [exact Hnd |].
      intros p; apply mark_one_phase.
Qed.

End ErrorLoop.

(* ------------------------------------------------------------------ *)
(** ** What [transformRun] returns                                     *)
(* ------------------------------------------------------------------ *)

Section Projection.

Lemma PHASE_ORDER_NoDup : NoDup PHASE_ORDER.
Proof.
  unfold PHASE_ORDER.
  repeat (constructor; [cbn; intuition discriminate |]).
  constructor.
Qed.

Lemma classified_names (raw : PipelineRunRaw.t) :
  map PhaseInfo.phase (classified_phases raw) = PHASE_ORDER.
Proof. reflexivity. Qed.

Lemma transformRun_phases (raw : PipelineRunRaw.t) :
  PipelineRun.phases (transformRun raw)
  = map (mark_all (rawErrors raw)) (classified_phases raw).
Proof.
  unfold transformRun.
  rewrite error_loop_spec
    by (rewrite classified_names; exact PHASE_ORDER_NoDup).
  reflexivity.
Qed.

Lemma transformRun_errors (raw : PipelineRunRaw.t) :
  PipelineRun.errors (transformRun raw)
  = match flat_map contributed (rawErrors raw) with
    | [] => None
    | l => Some l
    end.
Proof.
  unfold transformRun.
  rewrite error_loop_spec
    by (rewrite classified_names; exact PHASE_ORDER_NoDup).
  cbn [app PipelineRun.errors].
  now destruct (flat_map contributed (rawErrors raw)).
Qed.

Lemma classified_view (raw : PipelineRunRaw.t) (k : PhaseKey) (idx : nat) :
  nth_error PHASE_ORDER idx = Some k ->
  find (fun p => String.eqb (PhaseInfo.phase p) k) (classified_phases raw)
  = Some (phase_info raw k (Z.of_nat idx)).
Proof.
  intros Hk.
  do 6 (destruct idx as [| idx];
        [cbn in Hk; injection Hk as <-; reflexivity |]).
  destruct idx; discriminate.
Qed.

Lemma find_mark_all (es : list ErrorEntry.t) (k : PhaseKey) (ps : list PhaseInfo.t) :
  find (fun p => String.eqb (PhaseInfo.phase p) k) (map (mark_all es) ps)
  = option_map (mark_all es) (find (fun p => String.eqb (PhaseInfo.phase p) k) ps).
Proof.
  induction ps as [| p rest IH]; cbn [map find]; [reflexivity |].
  rewrite mark_all_phase.
  now destruct (String.eqb (PhaseInfo.phase p) k).
Qed.

(** The view of a canonical phase in the output: the classified view, with
    the status overwritten when an error entry tags the phase. *)
Lemma transformRun_view (raw : PipelineRunRaw.t) (k : PhaseKey) (idx : nat) :
  nth_error PHASE_ORDER idx = Some k ->
  find (fun p => String.eqb (PhaseInfo.phase p) k) (PipelineRun.phases (transformRun raw))
  = Some (mark_all (rawErrors raw) (phase_info raw k (Z.of_nat idx))).
Proof.
  intros Hk.
  now rewrite transformRun_phases, find_mark_all, (classified_view raw k idx Hk).
Qed.

End Projection.

(* ------------------------------------------------------------------ *)
(** ** The phase list                                                  *)
(* ------------------------------------------------------------------ *)

Lemma transformRun_names (raw : PipelineRunRaw.t) :
  map PhaseInfo.phase (PipelineRun.phases (transformRun raw)) = PHASE_ORDER.
Proof.
  rewrite transformRun_phases, map_map.
  transitivity (map PhaseInfo.phase (classified_phases raw));
    [apply map_ext; intros p; apply mark_all_phase | apply classified_names].
Qed.

(** C8. For every snapshot, the phase list of the output has one entry per
    canonical phase, six in all, in canonical order, whatever the timings map
    holds. *)
Theorem phases_follow_canonical_order (raw : PipelineRunRaw.t) :
  map PhaseInfo.phase (PipelineRun.phases (transformRun raw)) = PHASE_ORDER
  /\ length (PipelineRun.phases (transformRun raw)) = 6%nat.
Proof.
  split; [apply transformRun_names |].
  rewrite <- (length_map PhaseInfo.phase), transformRun_names; reflexivity.
Qed.

Lemma canonical_phase_truthy (k : PhaseKey) :
  In k PHASE_ORDER -> JS.truthy (Some k) = true.
Proof.
  unfold PHASE_ORDER; cbn [In].
  intros H; repeat (destruct H as [<- | H]; [reflexivity |]); contradiction.
Qed.

Lemma tagged_by_entry (es : list ErrorEntry.t) (o : ErrorEntry.obj) (k : PhaseKey) :
  In (ErrorEntry.object o) es -> ErrorEntry.phase o = Some k -> In k PHASE_ORDER ->
  tagged es k = true.
Proof.
  intros Hin Hk Hcanon; unfold tagged.
  apply existsb_exists; exists (ErrorEntry.object o); split; [exact Hin |].
  cbn [tags]; rewrite Hk; cbv beta iota.
  now rewrite (canonical_phase_truthy k Hcanon), String.eqb_refl.
Qed.

(** C4. When the error list holds an object entry whose phase tag is a
    canonical phase, the output has a view for that phase and every view of
    that phase has status [error], whatever status the classification by
    duration and current phase gave it. *)
Theorem tagged_phase_has_error_status
        (raw : PipelineRunRaw.t) (es : list ErrorEntry.t) (o : ErrorEntry.obj) (k : PhaseKey) :
  PipelineRunRaw.errors raw = Some es ->
  In (ErrorEntry.object o) es ->
  ErrorEntry.phase o = Some k ->
  In k PHASE_ORDER ->
  phase_status (PipelineRun.phases (transformRun raw)) k = Some PhaseStatus.error
  /\ (forall v, In v (PipelineRun.phases (transformRun raw)) ->
                PhaseInfo.phase v = k -> PhaseInfo.status v = PhaseStatus.error).
Proof.
  intros Hes Hin Hk Hcanon.
  assert (Htag : tagged (rawErrors raw) k = true).
  { unfold rawErrors; rewrite Hes; eapply tagged_by_entry; eassumption. }
  split.
  - destruct (In_nth_error _ _ Hcanon) as [idx Hidx].
    unfold phase_status; rewrite (transformRun_view raw k idx Hidx).
    unfold mark_all; cbn [phase_info PhaseInfo.phase]; rewrite Htag; reflexivity.
  - intros v Hv Hphase; rewrite transformRun_phases in Hv.
    apply in_map_iff in Hv; destruct Hv as (p & <- & _).
    rewrite mark_all_phase in Hphase; unfold mark_all.
    rewrite Hphase, Htag; reflexivity.
Qed.

Lemma tagged_phase_has_error_status_witness :
  phase_status (classified_phases failed_evaluation) "evaluation" = Some PhaseStatus.running
  /\ phase_status (PipelineRun.phases (transformRun failed_evaluation)) "evaluation"
     = Some PhaseStatus.error.
Proof.
  split; [reflexivity |].
  apply (tagged_phase_has_error_status failed_evaluation
           [ErrorEntry.object (ErrorEntry.mk (Some "evaluation") (Some "divide by zero"))]
           (ErrorEntry.mk (Some "evaluation") (Some "divide by zero")) "evaluation").
  - reflexivity.
  - left; reflexivity.
  - reflexivity.
  - cbn; tauto.
Defined.

(* ------------------------------------------------------------------ *)
(** ** The flattened error list                                        *)
(* ------------------------------------------------------------------ *)

Lemma error_string_text (o : ErrorEntry.obj) : error_string o = object_text o.
Proof.
  destruct o as [ph msg js].
  unfold object_text, error_string, JS.truthy; cbn [ErrorEntry.phase ErrorEntry.error].
  destruct msg as [m |], ph as [p |]; try reflexivity;
    try destruct (String.eqb m EmptyString); try destruct (String.eqb p EmptyString);
    reflexivity.
Qed.

Lemma contributed_rendered (e : ErrorEntry.t) : contributed e = rendered e.
Proof.
  destruct e as [s | o |]; [reflexivity | | reflexivity].
  cbn [contributed rendered]; now rewrite error_string_text.
Qed.

Lemma flat_map_pointwise {A B : Type} (f g : A -> list B) (l : list A) :
  (forall a, f a = g a) -> flat_map f l = flat_map g l.
Proof.
  intros H; induction l as [| a rest IH]; cbn [flat_map]; [reflexivity |].
  now rewrite H, IH.
Qed.

Lemma filter_all {A : Type} (f : A -> bool) (l : list A) :
  forallb f l = true -> filter f l = l.
Proof.
  induction l as [| a rest IH]; cbn [forallb filter]; [reflexivity |].
  intros H; apply andb_true_iff in H; destruct H as [-> H]; now rewrite IH.
Qed.

Lemma rendered_count (es : list ErrorEntry.t) :
  length (flat_map rendered es) = length (filter is_message es).
Proof.
  induction es as [| [s | o |] rest IH];
    cbn [flat_map filter is_message rendered app length]; now rewrite ?IH.
Qed.

Lemma transformRun_flattened (raw : PipelineRunRaw.t) :
  flattened (transformRun raw) = flat_map contributed (rawErrors raw).
Proof.
  unfold flattened; rewrite transformRun_errors.
  now destruct (flat_map contributed (rawErrors raw)).
Qed.

(** C9, as the code has it. Every entry of the error list that is a bare
    string or an object contributes one string to the flattened list, in the
    original order, and any other entry contributes nothing: a bare string
    itself; an object its message, or the text of [JSON.stringify] for that
    entry when the message is absent or empty, behind "[phase] " when its phase
    tag is present and not empty. The flattened list is as long as there are
    strings and objects among the entries, so as long as the error list when it
    holds nothing else. *)
Theorem errors_flattened_in_order (raw : PipelineRunRaw.t) :
  flattened (transformRun raw) = flat_map rendered (rawErrors raw)
  /\ length (flattened (transformRun raw)) = length (filter is_message (rawErrors raw))
  /\ (forallb is_message (rawErrors raw) = true ->
      length (flattened (transformRun raw)) = length (rawErrors raw)).
Proof.
  assert (H : flattened (transformRun raw) = flat_map rendered (rawErrors raw)).
  { rewrite transformRun_flattened; apply flat_map_pointwise, contributed_rendered. }
  split; [exact H |].
  rewrite H, rendered_count; split; [reflexivity |].
  intros Hall; now rewrite filter_all.
Qed.

Lemma errors_flattened_in_order_witness :
  flattened (transformRun stray_entries) = ["x"]
  /\ length (flattened (transformRun run_level_errors)) = 2%nat.
Proof.
  split; [reflexivity |].
  apply (proj2 (proj2 (errors_flattened_in_order run_level_errors))).
  reflexivity.
Defined.

(** C9 as stated fails on an object whose phase tag is present but empty,
    which is pushed without a prefix, and on one whose message is present but
    empty, which is rendered from its JSON text. *)
Lemma empty_fields_are_not_rendered_as_claimed :
  rawErrors empty_fields
  = [ErrorEntry.object (ErrorEntry.mk (Some EmptyString) (Some "boom"));
     ErrorEntry.object (ErrorEntry.mk (Some "evaluation") (Some EmptyString))]
  /\ PipelineRun.errors (transformRun empty_fields)
     = Some ["boom";
             ("[evaluation] "
              ++ ErrorEntry.stringify (ErrorEntry.mk (Some "evaluation") (Some EmptyString)))%string]
  /\ map object_text_as_claimed
         [ErrorEntry.mk (Some EmptyString) (Some "boom");
          ErrorEntry.mk (Some "evaluation") (Some EmptyString)]
     = ["[] boom"; "[evaluation] "].
Proof. repeat split; reflexivity. Qed.

(** C10. When the error list is absent, or contributes no string, the
    [errors] field of the output is absent; the field never holds an empty
    list. *)
Theorem no_errors_no_field (raw : PipelineRunRaw.t) :
  (PipelineRunRaw.errors raw = None
   \/ (exists es, PipelineRunRaw.errors raw = Some es /\ flat_map contributed es = []) ->
   PipelineRun.errors (transformRun raw) = None)
  /\ PipelineRun.errors (transformRun raw) <> Some [].
Proof.
  rewrite transformRun_errors; unfold rawErrors; split.
  - intros [-> | (es & -> & ->)]; reflexivity.
  - destruct (PipelineRunRaw.errors raw) as [es |]; [| discriminate].
    destruct (flat_map contributed es); discriminate.
Qed.

Lemma no_errors_no_field_witness :
  PipelineRun.errors (transformRun fresh_run) = None
  /\ PipelineRun.errors (transformRun (snapshot PipelineStatus.completed None None None (Some [])))
     = None
  /\ PipelineRun.errors
       (transformRun (snapshot PipelineStatus.completed None None None
                        (Some [ErrorEntry.other; ErrorEntry.other])))
     = None.
Proof.
  split; [| split].
  - apply (proj1 (no_errors_no_field fresh_run)); left; reflexivity.
  - apply (proj1 (no_errors_no_field _)); right; exists []; split; reflexivity.
  - apply (proj1 (no_errors_no_field _)); right.
    exists [ErrorEntry.other; ErrorEntry.other]; split; reflexivity.
Defined.

(* ------------------------------------------------------------------ *)
(** ** The occurrence count of the timeline                            *)
(* ------------------------------------------------------------------ *)

Lemma count_by_name (k : PhaseKey) (ps : list PhaseInfo.t) :
  length (filter (fun p => String.eqb (PhaseInfo.phase p) k) ps)
  = length (filter (fun n => String.eqb n k) (map PhaseInfo.phase ps)).
Proof.
  induction ps as [| p rest IH]; cbn [map filter]; [reflexivity |].
  destruct (String.eqb (PhaseInfo.phase p) k); cbn [length]; now rewrite IH.
Qed.

(** Whatever the snapshot, every row of the timeline built from the projected
    phases has count one. *)
Lemma timeline_counts_are_one (raw : PipelineRunRaw.t) :
  map TimelineRow.count (timeline (PipelineRun.phases (transformRun raw)))
  = [1; 1; 1; 1; 1; 1]%nat.
Proof.
  unfold timeline; rewrite map_map.
  cbn [map PHASE_META timeline_row TimelineRow.count].
  rewrite !count_by_name, transformRun_names.
  reflexivity.
Qed.

(** C2 on the code. With two critic iterations recorded and no bare key, the
    critic view carries the summed duration 5.5, and the count shown beside it
    is 1, not the 2 occurrences. *)
Theorem two_critic_rounds_count_one :
  critic_occurrences (timings two_critic_rounds) = 2%nat
  /\ phase_duration (PipelineRun.phases (transformRun two_critic_rounds)) "critic_review"
     = Some (JS.num 5.5%float)
  /\ timeline_count (timeline (PipelineRun.phases (transformRun two_critic_rounds)))
       "critic_review" = Some 1%nat.
Proof. repeat split; reflexivity. Qed.

(* ------------------------------------------------------------------ *)
(** ** Durations                                                       *)
(* ------------------------------------------------------------------ *)

Lemma sum_critic_fold (entries : JS.object) (acc : float) :
  sum_critic entries acc = fold_left PrimFloat.add (composite_timings entries) acc.
Proof.
  revert acc; induction entries as [| [k v] rest IH]; intros acc; [reflexivity |].
  cbn [sum_critic composite_timings]; unfold JS.startsWith.
  destruct v as [| | x]; cbn [JS.is_number JS.add_assign]; rewrite ?andb_false_r, IH;
    try reflexivity.
  destruct (String.prefix "critic_review_" k); reflexivity.
Qed.

Lemma criticTotal_aggregate (raw : PipelineRunRaw.t) :
  criticTotal raw = aggregate_critic (timings raw).
Proof.
  unfold criticTotal, aggregate_critic, bare_critic_timing, JS.nullish.
  apply sum_critic_fold.
Qed.

Lemma duration_displayed (raw : PipelineRunRaw.t) (k : PhaseKey) :
  duration raw k = displayed_duration raw k.
Proof. unfold duration, displayed_duration; now rewrite criticTotal_aggregate. Qed.

(** C3, as the code has it. The duration of the critic view is the bare
    "critic_review" timing (zero when absent) plus every numeric timing filed
    under a key with prefix "critic_review_", when that total is above zero, and
    is absent otherwise; the duration of every other view is the bare timing of
    its phase. Timings 2.0 and 3.5 under critic_review_1 and critic_review_2
    give 5.5. *)
Theorem durations_aggregate_critic_only (raw : PipelineRunRaw.t) :
  map (fun p => (PhaseInfo.phase p, PhaseInfo.duration_seconds p))
      (PipelineRun.phases (transformRun raw))
  = map (fun k => (k, displayed_duration raw k)) PHASE_ORDER
  /\ phase_duration (PipelineRun.phases (transformRun two_critic_rounds)) "critic_review"
     = Some (JS.num 5.5%float).
Proof.
  split; [| reflexivity].
  rewrite transformRun_phases, map_map.
  transitivity (map (fun p => (PhaseInfo.phase p, PhaseInfo.duration_seconds p))
                    (classified_phases raw)).
  - apply map_ext; intros p; now rewrite mark_all_phase, mark_all_duration.
  - cbn [classified_phases JS.mapi JS.mapi_from PHASE_ORDER map phase_info
         PhaseInfo.phase PhaseInfo.duration_seconds].
    now rewrite !duration_displayed.
Qed.

(** C3 as stated fails when the total is not above zero: with a bare
    critic timing of 0 the total is 0 and the critic view carries no duration,
    where the view of another phase with a 0 timing carries 0. *)
Lemma zero_total_is_not_displayed :
  JS.get (timings zero_critic) "critic_review" = JS.num 0%float
  /\ aggregate_critic (timings zero_critic) = 0%float
  /\ phase_duration (PipelineRun.phases (transformRun zero_critic)) "critic_review"
     = Some JS.undefined
  /\ phase_duration (PipelineRun.phases (transformRun zero_critic)) "data_profiling"
     = Some (JS.num 0%float).
Proof. repeat split; reflexivity. Qed.

(* ------------------------------------------------------------------ *)
(** ** Status classification                                           *)
(* ------------------------------------------------------------------ *)

Section Classification.

Variable raw : PipelineRunRaw.t.

Lemma classified_status (k : PhaseKey) (idx : nat) :
  nth_error PHASE_ORDER idx = Some k ->
  phase_status (classified_phases raw) k = Some (classify raw k (Z.of_nat idx)).
Proof.
  intros Hk; unfold phase_status; now rewrite (classified_view raw k idx Hk).
Qed.

Lemma output_status (k : PhaseKey) (idx : nat) :
  nth_error PHASE_ORDER idx = Some k ->
  phase_status (PipelineRun.phases (transformRun raw)) k
  = Some (overridden (rawErrors raw) k (classify raw k (Z.of_nat idx))).
Proof.
  intros Hk; unfold phase_status, overridden.
  rewrite (transformRun_view raw k idx Hk).
  unfold mark_all; cbn [phase_info PhaseInfo.phase].
  now destruct (tagged (rawErrors raw) k).
Qed.

Lemma isRunning_true : isRunning raw = true <-> PipelineRunRaw.status raw = PipelineStatus.running.
Proof. unfold isRunning; destruct (PipelineRunRaw.status raw); cbn; split; congruence. Qed.

Lemma hasLooped_true :
  hasLooped raw = true <-> exists n, PipelineRunRaw.loop_count raw = Some n /\ (0 < n)%Z.
Proof.
  unfold hasLooped; destruct (PipelineRunRaw.loop_count raw) as [n |]; split.
  - intros H; exists n; split; [reflexivity | now apply Z.ltb_lt].
  - intros (m & [= <-] & Hm); now apply Z.ltb_lt.
  - discriminate.
  - intros (m & [=] & _).
Qed.

Lemma isFinalized_true :
  isFinalized raw = true <-> PipelineRunRaw.current_phase raw = Some "finalized".
Proof.
  unfold isFinalized, currentPhase.
  destruct (PipelineRunRaw.current_phase raw) as [p |]; split; try discriminate.
  - intros H; apply String.eqb_eq in H; now subst.
  - intros [= ->]; reflexivity.
Qed.

Lemma isFinalized_false :
  isFinalized raw = false <-> PipelineRunRaw.current_phase raw <> Some "finalized".
Proof.
  rewrite <- isFinalized_true; destruct (isFinalized raw); split; congruence.
Qed.

(** Looping mode in the words of the specification. *)
Lemma isLooping_true :
  isLooping raw = true <->
  PipelineRunRaw.status raw = PipelineStatus.running
  /\ (exists n, PipelineRunRaw.loop_count raw = Some n /\ (0 < n)%Z)
  /\ PipelineRunRaw.current_phase raw <> Some "finalized".
Proof.
  unfold isLooping.
  rewrite !andb_true_iff, negb_true_iff, isRunning_true, hasLooped_true, isFinalized_false.
  tauto.
Qed.

(** Only a duration above zero counts as evidence of execution, the
    finalized critic apart. *)
Lemma hasRun_aggregated (k : PhaseKey) :
  hasRun raw k
  = PrimFloat.ltb 0 (aggregated raw k)
    || (String.eqb k "critic_review" && String.eqb (currentPhase raw) "finalized").
Proof.
  unfold hasRun, criticDone, isFinalized; f_equal.
  rewrite duration_displayed; unfold displayed_duration, aggregated.
  destruct (String.eqb k "critic_review").
  - now destruct (PrimFloat.ltb 0 (aggregate_critic (timings raw))) eqn:E.
  - now destruct (JS.get (timings raw) k).
Qed.

Lemma currentIdx_of_position (ci : nat) :
  nth_error PHASE_ORDER ci = Some (currentPhase raw) -> currentIdx raw = Z.of_nat ci.
Proof.
  intros H; unfold currentIdx, JS.indexOf.
  now rewrite (indexOf_from_nth _ _ ci 0%Z PHASE_ORDER_NoDup H).
Qed.

Lemma currentIdx_absent :
  ~ In (currentPhase raw) PHASE_ORDER -> currentIdx raw = (-1)%Z.
Proof. intros H; now apply indexOf_from_absent. Qed.

Lemma currentIdx_found :
  (0 <= currentIdx raw)%Z ->
  exists ci, nth_error PHASE_ORDER ci = Some (currentPhase raw)
             /\ currentIdx raw = Z.of_nat ci.
Proof.
  intros H; destruct (indexOf_from_found PHASE_ORDER (currentPhase raw) 0%Z) as (n & Hn & Hv);
    [lia | exact H |].
  exists n; split; [exact Hn | exact Hv].
Qed.

(** The current phase is not canonical: absent, the sentinel, or unknown. *)
Lemma currentPhase_outside :
  PipelineRunRaw.current_phase raw = None
  \/ (exists p, PipelineRunRaw.current_phase raw = Some p /\ ~ In p PHASE_ORDER) ->
  ~ In (currentPhase raw) PHASE_ORDER.
Proof.
  unfold currentPhase; intros [-> | (p & -> & Hp)]; [| exact Hp].
  cbn; intuition discriminate.
Qed.

Lemma classify_outside (k : PhaseKey) (idx : Z) :
  ~ In (currentPhase raw) PHASE_ORDER -> In k PHASE_ORDER ->
  classify raw k idx = PhaseStatus.completed \/ classify raw k idx = PhaseStatus.pending.
Proof.
  intros Hout Hk; unfold classify, isCurrent.
  destruct (String.eqb_spec (currentPhase raw) k) as [E | _];
    [exfalso; apply Hout; now rewrite E |].
  rewrite (currentIdx_absent Hout); cbn [andb Z.leb Z.compare].
  rewrite andb_false_r; cbn [andb].
  destruct (hasRun raw k); [now left | now right].
Qed.

Lemma classify_will_rerun (k : PhaseKey) (idx : nat) :
  nth_error PHASE_ORDER idx = Some k ->
  hasRun raw k = true ->
  classify raw k (Z.of_nat idx) = PhaseStatus.will_rerun <->
  isLooping raw = true
  /\ (exists ci, nth_error PHASE_ORDER ci = Some (currentPhase raw) /\ (ci < idx)%nat)
  /\ k <> "critic_review".
Proof.
  intros Hk Hrun; unfold classify, isCurrent; rewrite Hrun; split.
  - destruct (String.eqb (currentPhase raw) k && isRunning raw); [discriminate |].
    destruct (isLooping raw); cbn [andb]; [| discriminate].
    destruct (Z.leb_spec 0 (currentIdx raw)) as [Hpos | _]; cbn [andb]; [| discriminate].
    destruct (Z.ltb_spec (currentIdx raw) (Z.of_nat idx)) as [Hlt | _]; cbn [andb];
      [| discriminate].
    destruct (String.eqb_spec k "critic_review") as [_ | Hne]; cbn [negb]; [discriminate |].
    intros _; split; [reflexivity | split; [| exact Hne]].
    destruct (currentIdx_found Hpos) as (ci & Hci & Hv).
    exists ci; split; [exact Hci | lia].
  - intros (Hloop & (ci & Hci & Hlt) & Hne).
    destruct (String.eqb_spec (currentPhase raw) k) as [E | _].
    + exfalso; rewrite E in Hci.
      assert (ci = idx); [| lia].
      apply (proj1 (NoDup_nth_error PHASE_ORDER) PHASE_ORDER_NoDup);
        [apply nth_error_Some; congruence | congruence].
    + cbn [andb]; rewrite Hloop, (currentIdx_of_position ci Hci).
      destruct (Z.leb_spec 0 (Z.of_nat ci)); [| lia].
      destruct (Z.ltb_spec (Z.of_nat ci) (Z.of_nat idx)); [| lia].
      destruct (String.eqb_spec k "critic_review"); [contradiction | reflexivity].
Qed.

End Classification.

Lemma canonical_current_phase (raw : PipelineRunRaw.t) (k : PhaseKey) :
  In k PHASE_ORDER ->
  currentPhase raw = k <-> PipelineRunRaw.current_phase raw = Some k.
Proof.
  intros Hk; unfold currentPhase.
  destruct (PipelineRunRaw.current_phase raw) as [p |]; split; try congruence.
  intros <-; exfalso; revert Hk; cbn; intuition discriminate.
Qed.

Lemma marked_status (es : list ErrorEntry.t) (p : PhaseInfo.t) :
  PhaseInfo.status (mark_all es p) = PhaseStatus.error
  \/ PhaseInfo.status (mark_all es p) = PhaseInfo.status p.
Proof. unfold mark_all; destruct (tagged es _); [now left | now right]. Qed.

(** With a current phase outside the canonical order, every classified view
    is [completed] or [pending]. *)
Lemma classified_outside (raw : PipelineRunRaw.t) (v : PhaseInfo.t) :
  ~ In (currentPhase raw) PHASE_ORDER -> In v (classified_phases raw) ->
  PhaseInfo.status v = PhaseStatus.completed \/ PhaseInfo.status v = PhaseStatus.pending.
Proof.
  intros Hout Hv.
  cbn [classified_phases JS.mapi JS.mapi_from PHASE_ORDER In] in Hv.
  repeat (destruct Hv as [<- | Hv];
          [cbn [phase_info PhaseInfo.status];
           apply (classify_outside raw _ _ Hout); cbn; tauto |]).
  contradiction.
Qed.

(** C7. When the current phase is absent or is not a canonical phase (the
    "finalized" sentinel, an unknown name), no view is [will_rerun] and none is
    [running], neither after classification nor in the output. *)
Theorem no_rerun_outside_canonical_order (raw : PipelineRunRaw.t) :
  PipelineRunRaw.current_phase raw = None
  \/ (exists p, PipelineRunRaw.current_phase raw = Some p /\ ~ In p PHASE_ORDER) ->
  Forall (fun v => PhaseInfo.status v <> PhaseStatus.will_rerun
                   /\ PhaseInfo.status v <> PhaseStatus.running)
         (classified_phases raw)
  /\ Forall (fun v => PhaseInfo.status v <> PhaseStatus.will_rerun
                      /\ PhaseInfo.status v <> PhaseStatus.running)
            (PipelineRun.phases (transformRun raw)).
Proof.
  intros H; pose proof (currentPhase_outside raw H) as Hout.
  split; apply Forall_forall; intros v Hv.
  - destruct (classified_outside raw v Hout Hv) as [-> | ->]; split; discriminate.
  - rewrite transformRun_phases in Hv.
    apply in_map_iff in Hv; destruct Hv as (p & <- & Hp).
    destruct (marked_status (rawErrors raw) p) as [-> | ->]; [split; discriminate |].
    destruct (classified_outside raw p Hout Hp) as [-> | ->]; split; discriminate.
Qed.

Lemma no_rerun_outside_canonical_order_witness :
  Forall (fun v => PhaseInfo.status v <> PhaseStatus.will_rerun
                   /\ PhaseInfo.status v <> PhaseStatus.running)
         (PipelineRun.phases (transformRun unknown_phase)).
Proof.
  apply (no_rerun_outside_canonical_order unknown_phase).
  right; exists "warmup"; split; [reflexivity | cbn; intuition discriminate].
Defined.

(** C5. Once the current phase is "finalized", looping mode is off and the
    critic counts as having run, recorded timing or not: it is classified
    [completed], no view of the output is [will_rerun], and the critic view of
    the output is [completed] unless an error entry tags it. *)
Theorem finalized_critic_is_completed (raw : PipelineRunRaw.t) :
  PipelineRunRaw.current_phase raw = Some "finalized" ->
  isLooping raw = false
  /\ hasRun raw "critic_review" = true
  /\ phase_status (classified_phases raw) "critic_review" = Some PhaseStatus.completed
  /\ phase_status (PipelineRun.phases (transformRun raw)) "critic_review"
     = Some (overridden (rawErrors raw) "critic_review" PhaseStatus.completed)
  /\ Forall (fun v => PhaseInfo.status v <> PhaseStatus.will_rerun)
            (PipelineRun.phases (transformRun raw)).
Proof.
  intros Hfin.
  assert (Hf : isFinalized raw = true) by now apply isFinalized_true.
  assert (Hcp : currentPhase raw = "finalized") by (unfold currentPhase; now rewrite Hfin).
  assert (Hloop : isLooping raw = false).
  { unfold isLooping; rewrite Hf; apply andb_false_r. }
  assert (Hrun : hasRun raw "critic_review" = true).
  { unfold hasRun, criticDone; rewrite Hf; cbn; apply orb_true_r. }
  assert (Hcl : classify raw "critic_review" 5 = PhaseStatus.completed).
  { unfold classify, isCurrent; rewrite Hrun, Hloop, Hcp; reflexivity. }
  repeat split; try assumption.
  - rewrite (classified_status raw "critic_review" 5 eq_refl); cbn [Z.of_nat Pos.of_succ_nat Pos.succ].
    now rewrite Hcl.
  - rewrite (output_status raw "critic_review" 5 eq_refl); cbn [Z.of_nat Pos.of_succ_nat Pos.succ].
    now rewrite Hcl.
  - apply Forall_forall; intros v Hv.
    rewrite transformRun_phases in Hv.
    apply in_map_iff in Hv; destruct Hv as (p & <- & Hp).
    assert (Hout : ~ In (currentPhase raw) PHASE_ORDER)
      by (rewrite Hcp; cbn; intuition discriminate).
    destruct (marked_status (rawErrors raw) p) as [-> | ->]; [discriminate |].
    destruct (classified_outside raw p Hout Hp) as [-> | ->]; discriminate.
Qed.

Lemma finalized_critic_is_completed_witness :
  phase_status (PipelineRun.phases (transformRun finalized_run)) "critic_review"
  = Some PhaseStatus.completed.
Proof.
  apply (proj1 (proj2 (proj2 (proj2 (finalized_critic_is_completed finalized_run eq_refl))))).
Defined.

(** C6. A canonical phase whose aggregated duration is zero, an explicit 0
    entry included, that is neither the current phase of a running run nor the
    critic of a finalized run, has not run and is classified [pending]; in the
    output it is [pending] unless an error entry tags it. *)
Theorem zero_duration_is_pending (raw : PipelineRunRaw.t) (k : PhaseKey) (idx : nat) :
  nth_error PHASE_ORDER idx = Some k ->
  PrimFloat.eqb (aggregated raw k) 0 = true ->
  ~ (PipelineRunRaw.current_phase raw = Some k
     /\ PipelineRunRaw.status raw = PipelineStatus.running) ->
  ~ (k = "critic_review" /\ PipelineRunRaw.current_phase raw = Some "finalized") ->
  hasRun raw k = false
  /\ phase_status (classified_phases raw) k = Some PhaseStatus.pending
  /\ phase_status (PipelineRun.phases (transformRun raw)) k
     = Some (overridden (rawErrors raw) k PhaseStatus.pending).
Proof.
  intros Hk Hzero Hcur Hfin.
  assert (Hrun : hasRun raw k = false).
  { rewrite hasRun_aggregated, (zero_not_above_zero _ Hzero); cbn [orb].
    apply andb_false_iff.
    destruct (String.eqb_spec k "critic_review") as [E | _]; [right | now left].
    apply (isFinalized_false raw); intros Hf; apply Hfin; now split. }
  assert (Hcl : classify raw k (Z.of_nat idx) = PhaseStatus.pending).
  { unfold classify; rewrite Hrun.
    destruct (isCurrent raw k && isRunning raw) eqn:E; [| reflexivity].
    exfalso; apply Hcur; apply andb_true_iff in E; destruct E as [E1 E2]; split.
    - apply canonical_current_phase; [eapply nth_error_In; eassumption |].
      now apply String.eqb_eq.
    - now apply isRunning_true. }
  split; [exact Hrun |].
  now rewrite (classified_status raw k idx Hk), (output_status raw k idx Hk), Hcl.
Qed.

Lemma zero_duration_is_pending_witness :
  JS.get (timings zero_profiling) "data_profiling" = JS.num 0%float
  /\ phase_status (PipelineRun.phases (transformRun zero_profiling)) "data_profiling"
     = Some PhaseStatus.pending.
Proof.
  split; [reflexivity |].
  apply (zero_duration_is_pending zero_profiling "data_profiling" 0).
  - reflexivity.
  - reflexivity.
  - intros [H _]; discriminate H.
  - intros [H _]; discriminate H.
Defined.

Lemma current_phase_position (raw : PipelineRunRaw.t) (ci : nat) :
  nth_error PHASE_ORDER ci = Some (currentPhase raw) <->
  exists p, PipelineRunRaw.current_phase raw = Some p /\ nth_error PHASE_ORDER ci = Some p.
Proof.
  unfold currentPhase; destruct (PipelineRunRaw.current_phase raw) as [p |]; split.
  - intros H; now exists p.
  - intros (q & [= <-] & H); exact H.
  - intros H; apply nth_error_In in H; exfalso; revert H; cbn; intuition discriminate.
  - intros (q & [=] & _).
Qed.

(** C1. In a running run that has looped at least once and whose current
    phase is feature_engineering, with timings above zero recorded for
    data_profiling, feature_engineering, visualization and model_training, the
    classification gives [will_rerun] to visualization and model_training,
    [running] to feature_engineering and [completed] to data_profiling, and the
    output shows these statuses wherever no error entry tags the phase.
    In general a canonical phase that has run is classified [will_rerun]
    exactly when the run is in looping mode (status running, loop count above
    zero, current phase not "finalized"), the current phase stands strictly
    before it in canonical order, and it is not critic_review. *)
Theorem loop_back_marks_later_phases (raw : PipelineRunRaw.t) :
  (PipelineRunRaw.status raw = PipelineStatus.running ->
   (exists n, PipelineRunRaw.loop_count raw = Some n /\ (1 <= n)%Z) ->
   PipelineRunRaw.current_phase raw = Some "feature_engineering" ->
   (forall k, In k ["data_profiling"; "feature_engineering"; "visualization"; "model_training"] ->
              exists x, JS.get (timings raw) k = JS.num x /\ PrimFloat.ltb 0 x = true) ->
   forall k s,
     In (k, s) [("data_profiling", PhaseStatus.completed);
                ("feature_engineering", PhaseStatus.running);
                ("visualization", PhaseStatus.will_rerun);
                ("model_training", PhaseStatus.will_rerun)] ->
     phase_status (classified_phases raw) k = Some s
     /\ phase_status (PipelineRun.phases (transformRun raw)) k
        = Some (overridden (rawErrors raw) k s))
  /\
  (forall k idx,
     nth_error PHASE_ORDER idx = Some k ->
     hasRun raw k = true ->
     phase_status (classified_phases raw) k = Some PhaseStatus.will_rerun <->
     (PipelineRunRaw.status raw = PipelineStatus.running
      /\ (exists n, PipelineRunRaw.loop_count raw = Some n /\ (0 < n)%Z)
      /\ PipelineRunRaw.current_phase raw <> Some "finalized")
     /\ (exists p ci, PipelineRunRaw.current_phase raw = Some p
                      /\ nth_error PHASE_ORDER ci = Some p /\ (ci < idx)%nat)
     /\ k <> "critic_review").
Proof.
  split.
  - intros Hst (n & Hn & Hge) Hcp Hpos k s Hks.
    assert (Hrun : isRunning raw = true) by now apply isRunning_true.
    assert (Hloop : isLooping raw = true).
    { apply isLooping_true; repeat split; [exact Hst | | rewrite Hcp; discriminate].
      exists n; split; [exact Hn | lia]. }
    assert (Hcur : currentPhase raw = "feature_engineering")
      by (unfold currentPhase; now rewrite Hcp).
    assert (Hidx : currentIdx raw = 1%Z) by (unfold currentIdx; now rewrite Hcur).
    assert (Hcl : forall idx, nth_error PHASE_ORDER idx = Some k ->
                              classify raw k (Z.of_nat idx) = s ->
                              phase_status (classified_phases raw) k = Some s
                              /\ phase_status (PipelineRun.phases (transformRun raw)) k
                                 = Some (overridden (rawErrors raw) k s)).
    { intros idx Hk <-.
      now rewrite (classified_status raw k idx Hk), (output_status raw k idx Hk). }
    assert (Hhas : forall k', In k' ["data_profiling"; "feature_engineering";
                                     "visualization"; "model_training"] ->
                              hasRun raw k' = true).
    { intros k' Hk'; destruct (Hpos k' Hk') as (x & Hx & Hgt).
      unfold hasRun, duration.
      replace (String.eqb k' "critic_review") with false
        by (cbn in Hk'; decompose [or] Hk'; subst; try reflexivity; contradiction).
      now rewrite Hx; cbn [JS.positive]; rewrite Hgt. }
    cbn [In] in Hks; decompose [or] Hks; try contradiction;
      match goal with E : (_, _) = (k, s) |- _ => injection E as <- <- end;
      [ apply (Hcl 0%nat eq_refl) | apply (Hcl 1%nat eq_refl)
      | apply (Hcl 2%nat eq_refl) | apply (Hcl 3%nat eq_refl) ];
      unfold classify, isCurrent;
      rewrite ?Hhas by (cbn; tauto);
      rewrite Hrun, Hloop, Hidx, Hcur; reflexivity.
  - intros k idx Hk Hhas.
    rewrite (classified_status raw k idx Hk), <- isLooping_true.
    split.
    + intros [= Hcl]; apply (classify_will_rerun raw k idx Hk Hhas) in Hcl.
      destruct Hcl as (Hloop & (ci & Hci & Hlt) & Hne).
      split; [exact Hloop | split; [| exact Hne]].
      apply current_phase_position in Hci; destruct Hci as (p & Hp & Hci).
      now exists p, ci.
    + intros (Hloop & (p & ci & Hp & Hci & Hlt) & Hne); f_equal.
      apply (classify_will_rerun raw k idx Hk Hhas).
      split; [exact Hloop | split; [| exact Hne]].
      exists ci; split; [| exact Hlt].
      apply current_phase_position; now exists p.
Qed.

Lemma loop_back_marks_later_phases_witness :
  map (fun k => phase_status (PipelineRun.phases (transformRun looped_back)) k)
      ["data_profiling"; "feature_engineering"; "visualization"; "model_training"]
  = [Some PhaseStatus.completed; Some PhaseStatus.running;
     Some PhaseStatus.will_rerun; Some PhaseStatus.will_rerun]
  /\ phase_status (classified_phases looped_back) "visualization"
     = Some PhaseStatus.will_rerun.
Proof.
  split; [reflexivity |].
  apply (proj1 (loop_back_marks_later_phases looped_back)
               eq_refl
               (ex_intro _ 1%Z (conj eq_refl (Z.le_refl 1)))
               eq_refl).
  - intros k Hk; cbn [In] in Hk.
    destruct Hk as [<- | [<- | [<- | [<- | []]]]];
      eexists; split; reflexivity.
  - cbn; tauto.
Defined.

(* ------------------------------------------------------------------ *)
(** ** Further properties of the projection                            *)
(* ------------------------------------------------------------------ *)

Lemma classified_member (raw : PipelineRunRaw.t) (p : PhaseInfo.t) :
  In p (classified_phases raw) ->
  exists k idx, nth_error PHASE_ORDER idx = Some k /\ p = phase_info raw k (Z.of_nat idx).
Proof.
  cbn [classified_phases JS.mapi JS.mapi_from PHASE_ORDER In]; intros H.
  destruct H as [<- | [<- | [<- | [<- | [<- | [<- | []]]]]]];
    [ exists "data_profiling", 0%nat | exists "feature_engineering", 1%nat
    | exists "visualization", 2%nat | exists "model_training", 3%nat
    | exists "evaluation", 4%nat | exists "critic_review", 5%nat ];
    split; reflexivity.
Qed.

Lemma projected_member (raw : PipelineRunRaw.t) (v : PhaseInfo.t) :
  In v (PipelineRun.phases (transformRun raw)) ->
  exists k idx, nth_error PHASE_ORDER idx = Some k
                /\ v = mark_all (rawErrors raw) (phase_info raw k (Z.of_nat idx)).
Proof.
  rewrite transformRun_phases; intros H.
  apply in_map_iff in H; destruct H as (p & <- & Hp).
  destruct (classified_member raw p Hp) as (k & idx & Hk & ->).
  now exists k, idx.
Qed.

Lemma classify_not_error (raw : PipelineRunRaw.t) (k : PhaseKey) (idx : Z) :
  classify raw k idx <> PhaseStatus.error.
Proof.
  unfold classify.
  destruct (isCurrent raw k && isRunning raw); [discriminate |].
  destruct (hasRun raw k); [| discriminate].
  destruct (isLooping raw && _ && _ && _); discriminate.
Qed.

Lemma tagged_entry (es : list ErrorEntry.t) (k : PhaseKey) :
  tagged es k = true <->
  JS.truthy (Some k) = true
  /\ exists o, In (ErrorEntry.object o) es /\ ErrorEntry.phase o = Some k.
Proof.
  unfold tagged; rewrite existsb_exists; split.
  - intros ([s | o |] & Hin & Ht); cbn [tags] in Ht; [discriminate | | discriminate].
    destruct (ErrorEntry.phase o) as [t |] eqn:Hp; [| discriminate].
    apply andb_true_iff in Ht; destruct Ht as [Ht E].
    apply String.eqb_eq in E; subst t.
    split; [exact Ht | now exists o].
  - intros (Ht & o & Hin & Hp); exists (ErrorEntry.object o); split; [exact Hin |].
    cbn [tags]; rewrite Hp; cbv beta iota.
    now rewrite Ht, String.eqb_refl.
Qed.

Lemma last_or_null_member {A : Type} (xs : list A) (x : A) :
  last_or_null xs = Some x -> In x xs.
Proof.
  induction xs as [| a [| b rest] IH]; cbn [last_or_null].
  - discriminate.
  - intros [= <-]; now left.
  - intros H; right; now apply IH.
Qed.

(** X1. The projector fills in the phase name, the status and the duration of
    a view and nothing else: no view of the output carries an error message
    or a timestamp, so no row of the timeline has an error text to show, not
    even for a phase whose status is [error]. *)
Theorem projected_views_carry_no_message (raw : PipelineRunRaw.t) :
  Forall (fun v => PhaseInfo.error v = None
                   /\ PhaseInfo.started_at v = None
                   /\ PhaseInfo.completed_at v = None)
         (PipelineRun.phases (transformRun raw))
  /\ Forall (fun r => TimelineRow.error r = None)
            (timeline (PipelineRun.phases (transformRun raw))).
Proof.
  assert (H : Forall (fun v => PhaseInfo.error v = None
                               /\ PhaseInfo.started_at v = None
                               /\ PhaseInfo.completed_at v = None)
                     (PipelineRun.phases (transformRun raw))).
  { apply Forall_forall; intros v Hv.
    destruct (projected_member raw v Hv) as (k & idx & _ & ->).
    unfold mark_all; destruct (tagged _ _); repeat split. }
  split; [exact H |].
  apply Forall_forall; intros r Hr.
  unfold timeline in Hr; apply in_map_iff in Hr; destruct Hr as (m & <- & _).
  cbn [timeline_row TimelineRow.error].
  destruct (last_or_null _) as [p |] eqn:Hlast; [| reflexivity].
  apply last_or_null_member, filter_In in Hlast; destruct Hlast as [Hp _].
  rewrite Forall_forall in H; now apply H.
Qed.

(** X2. A view of the output has status [error] exactly when some object entry
    of the error list carries its phase as tag: the classification itself
    never yields [error]. *)
Theorem error_status_only_from_entries (raw : PipelineRunRaw.t) :
  Forall (fun v => PhaseInfo.status v = PhaseStatus.error <->
                   exists o, In (ErrorEntry.object o) (rawErrors raw)
                             /\ ErrorEntry.phase o = Some (PhaseInfo.phase v))
         (PipelineRun.phases (transformRun raw)).
Proof.
  apply Forall_forall; intros v Hv.
  destruct (projected_member raw v Hv) as (k & idx & Hk & ->).
  rewrite mark_all_phase; cbn [phase_info PhaseInfo.phase].
  assert (Htr : JS.truthy (Some k) = true)
    by (apply canonical_phase_truthy; eapply nth_error_In; eassumption).
  unfold mark_all; cbn [phase_info PhaseInfo.phase].
  destruct (tagged (rawErrors raw) k) eqn:Ht.
  - split; [intros _ | reflexivity]. now apply tagged_entry in Ht.
  - cbn [PhaseInfo.status]; split.
    + intros E; now apply classify_not_error in E.
    + intros Hex. assert (tagged (rawErrors raw) k = true) by now apply tagged_entry.
      congruence.
Qed.

(** X3. Entries that are bare strings, untagged objects, or objects tagged with
    something that is not a canonical phase change no status: the phase list of
    the output is the classified list. *)
Theorem untagged_errors_change_no_status (raw : PipelineRunRaw.t) :
  (forall o k, In (ErrorEntry.object o) (rawErrors raw) ->
               ErrorEntry.phase o = Some k -> ~ In k PHASE_ORDER) ->
  PipelineRun.phases (transformRun raw) = classified_phases raw.
Proof.
  intros H; rewrite transformRun_phases.
  rewrite <- (map_id (classified_phases raw)) at 2.
  apply map_ext_in; intros p Hp.
  destruct (classified_member raw p Hp) as (k & idx & Hk & ->).
  unfold mark_all; cbn [phase_info PhaseInfo.phase].
  destruct (tagged (rawErrors raw) k) eqn:Ht; [| reflexivity].
  apply tagged_entry in Ht; destruct Ht as (_ & o & Hin & Hp').
  exfalso; apply (H o k Hin Hp'); eapply nth_error_In; eassumption.
Qed.

Lemma untagged_errors_change_no_status_witness :
  PipelineRun.phases (transformRun run_level_errors) = classified_phases run_level_errors
  /\ flattened (transformRun run_level_errors)
     = ["backend unavailable"; "[deployment] no target"].
Proof.
  split; [| reflexivity].
  apply (untagged_errors_change_no_status run_level_errors).
  intros o k [Hin | [Hin | []]] Hk; [discriminate Hin |].
  injection Hin as <-; injection Hk as <-.
  cbn; intuition discriminate.
Defined.

Lemma tagged_permutation (es es' : list ErrorEntry.t) (k : PhaseKey) :
  Permutation es es' -> tagged es k = tagged es' k.
Proof.
  unfold tagged; induction 1 as [| e l l' _ IH | a b l | l l' l'' _ IH1 _ IH2];
    cbn [existsb].
  - reflexivity.
  - now rewrite IH.
  - now rewrite !orb_assoc, (orb_comm (tags k b)).
  - congruence.
Qed.

(** X4. The order of the error entries decides the order of the flattened list
    and nothing else: two snapshots that differ only by a reordering of their
    error lists project to the same phase list, and to flattened lists that are
    reorderings of each other. *)
Theorem error_order_does_not_change_statuses
        (raw : PipelineRunRaw.t) (es es' : list ErrorEntry.t) :
  Permutation es es' ->
  PipelineRun.phases (transformRun (with_errors raw (Some es)))
  = PipelineRun.phases (transformRun (with_errors raw (Some es')))
  /\ Permutation (flattened (transformRun (with_errors raw (Some es))))
                 (flattened (transformRun (with_errors raw (Some es')))).
Proof.
  intros Hperm; split.
  - rewrite !transformRun_phases.
    change (classified_phases (with_errors raw (Some es'))) with (classified_phases raw).
    change (classified_phases (with_errors raw (Some es))) with (classified_phases raw).
    change (rawErrors (with_errors raw (Some es))) with es.
    change (rawErrors (with_errors raw (Some es'))) with es'.
    apply map_ext; intros p; unfold mark_all.
    now rewrite (tagged_permutation es es' _ Hperm).
  - rewrite !transformRun_flattened.
    change (rawErrors (with_errors raw (Some es))) with es.
    change (rawErrors (with_errors raw (Some es'))) with es'.
    now apply Permutation_flat_map.
Qed.

Lemma error_order_does_not_change_statuses_witness :
  PipelineRun.phases
    (transformRun (with_errors failed_evaluation
       (Some [ErrorEntry.str "late";
              ErrorEntry.object (ErrorEntry.mk (Some "evaluation") (Some "divide by zero"))])))
  = PipelineRun.phases
      (transformRun (with_errors failed_evaluation
         (Some [ErrorEntry.object (ErrorEntry.mk (Some "evaluation") (Some "divide by zero"));
                ErrorEntry.str "late"]))).
Proof.
  apply (error_order_does_not_change_statuses failed_evaluation).
  apply perm_swap.
Defined.

Lemma classify_running (raw : PipelineRunRaw.t) (k : PhaseKey) (idx : Z) :
  classify raw k idx = PhaseStatus.running <->
  currentPhase raw = k /\ isRunning raw = true.
Proof.
  unfold classify, isCurrent.
  destruct (String.eqb_spec (currentPhase raw) k) as [E | E]; cbn [andb].
  - destruct (isRunning raw); [tauto |].
    split; [| intros [_ H]; discriminate].
    destruct (hasRun raw k); [| discriminate].
    destruct (isLooping raw && _ && _ && _); discriminate.
  - split; [| tauto].
    destruct (hasRun raw k); [| discriminate].
    destruct (isLooping raw && _ && _ && _); discriminate.
Qed.

Lemma classify_will_rerun_inv (raw : PipelineRunRaw.t) (k : PhaseKey) (idx : Z) :
  classify raw k idx = PhaseStatus.will_rerun ->
  isLooping raw = true /\ (0 <= currentIdx raw < idx)%Z /\ k <> "critic_review".
Proof.
  unfold classify.
  destruct (isCurrent raw k && isRunning raw); [discriminate |].
  destruct (hasRun raw k); [| discriminate].
  destruct (isLooping raw); cbn [andb]; [| discriminate].
  destruct (Z.leb_spec 0 (currentIdx raw)); cbn [andb]; [| discriminate].
  destruct (Z.ltb_spec (currentIdx raw) idx); cbn [andb]; [| discriminate].
  destruct (String.eqb_spec k "critic_review"); cbn [negb]; [discriminate |].
  intros _; repeat split; assumption.
Qed.

(** X5. A snapshot whose overall status is not "running" projects to views that
    are [pending], [completed] or [error] only, whatever the current phase and
    the loop count say: the view of a canonical phase is [error] when an entry
    tags it, and otherwise [completed] when the phase has run and [pending] when
    it has not. *)
Theorem idle_run_shows_no_activity (raw : PipelineRunRaw.t) :
  PipelineRunRaw.status raw <> PipelineStatus.running ->
  Forall (fun v => PhaseInfo.status v <> PhaseStatus.running
                   /\ PhaseInfo.status v <> PhaseStatus.will_rerun)
         (PipelineRun.phases (transformRun raw))
  /\ (forall k idx,
        nth_error PHASE_ORDER idx = Some k ->
        phase_status (PipelineRun.phases (transformRun raw)) k
        = Some (overridden (rawErrors raw) k
                  (if hasRun raw k then PhaseStatus.completed else PhaseStatus.pending))).
Proof.
  intros Hst.
  assert (Hrun : isRunning raw = false).
  { destruct (isRunning raw) eqn:E; [| reflexivity].
    now apply isRunning_true in E. }
  split.
  - apply Forall_forall; intros v Hv.
    destruct (projected_member raw v Hv) as (k & idx & _ & ->).
    destruct (marked_status (rawErrors raw) (phase_info raw k (Z.of_nat idx))) as [-> | ->];
      [split; discriminate |].
    cbn [phase_info PhaseInfo.status]; split; intros E.
    + apply classify_running in E; destruct E as [_ E]; congruence.
    + apply classify_will_rerun_inv in E; destruct E as (E & _).
      unfold isLooping in E; rewrite Hrun in E; discriminate.
  - intros k idx Hk; rewrite (output_status raw k idx Hk); do 2 f_equal.
    unfold classify, isLooping; rewrite Hrun, andb_false_r; cbn [andb].
    now destruct (hasRun raw k).
Qed.

Lemma idle_run_shows_no_activity_witness :
  Forall (fun v => PhaseInfo.status v <> PhaseStatus.running
                   /\ PhaseInfo.status v <> PhaseStatus.will_rerun)
         (PipelineRun.phases (transformRun run_level_errors)).
Proof.
  apply (idle_run_shows_no_activity run_level_errors); discriminate.
Defined.

Lemma at_most_one_named {A : Type} (name : A -> string) (f : A -> bool) (c : string)
      (xs : list A) :
  NoDup (map name xs) ->
  (forall a, In a xs -> f a = true -> name a = c) ->
  (length (filter f xs) <= 1)%nat.
Proof.
  induction xs as [| a rest IH]; intros Hnd Hf; cbn [filter length map] in *; [lia |].
  inversion Hnd as [| ? ? Ha Hrest]; subst.
  destruct (f a) eqn:Fa.
  - assert (Hnone : filter f rest = []).
    { destruct (filter f rest) as [| b l] eqn:E; [reflexivity |].
      assert (Hb : In b (filter f rest)) by (rewrite E; now left).
      apply filter_In in Hb; destruct Hb as [Hb Fb].
      exfalso; apply Ha.
      rewrite (Hf a (or_introl eq_refl) Fa), <- (Hf b (or_intror Hb) Fb).
      now apply in_map. }
    rewrite Hnone; cbn; lia.
  - apply IH; [exact Hrest |].
    intros b Hb; apply Hf; now right.
Qed.

(** X6. At most one view of the output is [running]: only the view of the current
    phase can be. *)
Theorem at_most_one_running_phase (raw : PipelineRunRaw.t) :
  (length (filter (fun v => match PhaseInfo.status v with
                            | PhaseStatus.running => true
                            | _ => false
                            end)
                  (PipelineRun.phases (transformRun raw))) <= 1)%nat
  /\ Forall (fun v => PhaseInfo.status v = PhaseStatus.running ->
                      PipelineRunRaw.current_phase raw = Some (PhaseInfo.phase v))
            (PipelineRun.phases (transformRun raw)).
Proof.
  assert (H : forall v, In v (PipelineRun.phases (transformRun raw)) ->
                        PhaseInfo.status v = PhaseStatus.running ->
                        currentPhase raw = PhaseInfo.phase v
                        /\ In (PhaseInfo.phase v) PHASE_ORDER).
  { intros v Hv Hs.
    destruct (projected_member raw v Hv) as (k & idx & Hk & ->).
    rewrite mark_all_phase; cbn [phase_info PhaseInfo.phase].
    split; [| eapply nth_error_In; eassumption].
    destruct (marked_status (rawErrors raw) (phase_info raw k (Z.of_nat idx))) as [E | E];
      rewrite E in Hs; [discriminate |].
    now apply classify_running in Hs. }
  split.
  - apply (at_most_one_named PhaseInfo.phase _ (currentPhase raw)).
    + rewrite transformRun_names; exact PHASE_ORDER_NoDup.
    + intros v Hv Hs; symmetry; apply (H v Hv).
      now destruct (PhaseInfo.status v).
  - apply Forall_forall; intros v Hv Hs.
    destruct (H v Hv Hs) as [Hc Hin].
    now apply canonical_current_phase.
Qed.

Lemma at_most_one_running_phase_witness :
  filter (fun v => match PhaseInfo.status v with
                   | PhaseStatus.running => true
                   | _ => false
                   end)
         (PipelineRun.phases (transformRun looped_back))
  = [PhaseInfo.mk "feature_engineering" PhaseStatus.running None None
       (JS.num 2.25%float) None]
  /\ (length (filter (fun v => match PhaseInfo.status v with
                               | PhaseStatus.running => true
                               | _ => false
                               end)
                     (PipelineRun.phases (transformRun looped_back))) <= 1)%nat.
Proof.
  split; [reflexivity |].
  apply (proj1 (at_most_one_running_phase looped_back)).
Defined.

(** X7. Whenever some view of the output is [will_rerun], the current phase is a
    canonical phase and its own view is [running], or [error] when an entry
    tags it. *)
Theorem rerun_marks_come_with_a_running_phase (raw : PipelineRunRaw.t) :
  (exists v, In v (PipelineRun.phases (transformRun raw))
             /\ PhaseInfo.status v = PhaseStatus.will_rerun) ->
  In (currentPhase raw) PHASE_ORDER
  /\ phase_status (PipelineRun.phases (transformRun raw)) (currentPhase raw)
     = Some (overridden (rawErrors raw) (currentPhase raw) PhaseStatus.running).
Proof.
  intros (v & Hv & Hs).
  destruct (projected_member raw v Hv) as (k & idx & Hk & ->).
  destruct (marked_status (rawErrors raw) (phase_info raw k (Z.of_nat idx))) as [E | E];
    rewrite E in Hs; [discriminate |].
  apply classify_will_rerun_inv in Hs; destruct Hs as (Hloop & [Hpos _] & _).
  destruct (currentIdx_found raw Hpos) as (ci & Hci & _).
  split; [eapply nth_error_In; eassumption |].
  rewrite (output_status raw _ ci Hci); do 2 f_equal.
  apply classify_running; split; [reflexivity |].
  unfold isLooping in Hloop.
  now destruct (isRunning raw).
Qed.

Lemma rerun_marks_come_with_a_running_phase_witness :
  phase_status (PipelineRun.phases (transformRun looped_back)) (currentPhase looped_back)
  = Some PhaseStatus.running.
Proof.
  apply (rerun_marks_come_with_a_running_phase looped_back).
  eexists; split; [right; right; left; reflexivity | reflexivity].
Defined.

(** X8. The first and the last canonical phase are never [will_rerun]: nothing
    precedes data_profiling, and critic_review is excluded by name. *)
Theorem first_and_last_phase_never_rerun (raw : PipelineRunRaw.t) :
  phase_status (PipelineRun.phases (transformRun raw)) "data_profiling"
  <> Some PhaseStatus.will_rerun
  /\ phase_status (PipelineRun.phases (transformRun raw)) "critic_review"
     <> Some PhaseStatus.will_rerun.
Proof.
  rewrite (output_status raw "data_profiling" 0 eq_refl),
          (output_status raw "critic_review" 5 eq_refl).
  unfold overridden; split;
    (destruct (tagged (rawErrors raw) _); [discriminate |]);
    intros [= E]; apply classify_will_rerun_inv in E;
    destruct E as (_ & Hidx & Hne); [cbn in Hidx; lia | now apply Hne].
Qed.

(* ------------------------------------------------------------------ *)
(** ** The timeline and the graph built from a phase list              *)
(* ------------------------------------------------------------------ *)

Lemma filter_by_name_unique (k : PhaseKey) (ps : list PhaseInfo.t) (p : PhaseInfo.t) :
  NoDup (map PhaseInfo.phase ps) -> In p ps -> PhaseInfo.phase p = k ->
  filter (fun q => String.eqb (PhaseInfo.phase q) k) ps = [p].
Proof.
  intros Hnd Hin Hk; induction ps as [| a rest IH]; [contradiction |].
  inversion Hnd as [| ? ? Ha Hrest]; subst; cbn [filter].
  destruct Hin as [-> | Hin].
  - rewrite String.eqb_refl; f_equal.
    destruct (filter _ rest) as [| b l] eqn:E; [reflexivity |].
    assert (Hb : In b (filter (fun q => String.eqb (PhaseInfo.phase q) (PhaseInfo.phase p)) rest))
      by (rewrite E; now left).
    apply filter_In in Hb; destruct Hb as [Hb Eb]; apply String.eqb_eq in Eb.
    exfalso; apply Ha; rewrite <- Eb; now apply in_map.
  - destruct (String.eqb_spec (PhaseInfo.phase a) (PhaseInfo.phase p)) as [E | _].
    + exfalso; apply Ha; rewrite E; now apply in_map.
    + now apply IH.
Qed.

(** On a phase list with one entry per name, the row of a phase that has an
    entry repeats that entry. *)
Lemma timeline_row_of_entry (ps : list PhaseInfo.t) (m : PhaseMeta) (p : PhaseInfo.t) :
  NoDup (map PhaseInfo.phase ps) -> In p ps -> PhaseInfo.phase p = key m ->
  timeline_row ps m
  = TimelineRow.mk m (PhaseInfo.status p) (PhaseInfo.duration_seconds p) (PhaseInfo.error p) 1.
Proof.
  intros Hnd Hin Hk; unfold timeline_row.
  now rewrite (filter_by_name_unique (key m) ps p Hnd Hin Hk).
Qed.

Lemma aligned_rows (ms : list PhaseMeta) (ps all : list PhaseInfo.t) :
  NoDup (map PhaseInfo.phase all) -> incl ps all ->
  map key ms = map PhaseInfo.phase ps ->
  map (fun r => (key (TimelineRow.meta r), TimelineRow.status r, TimelineRow.duration r))
      (map (timeline_row all) ms)
  = map (fun p => (PhaseInfo.phase p, PhaseInfo.status p, PhaseInfo.duration_seconds p)) ps.
Proof.
  intros Hnd; revert ps; induction ms as [| m ms IH]; intros [| p ps] Hincl Hkeys;
    try discriminate; [reflexivity |].
  injection Hkeys as Hk Hrest; cbn [map].
  rewrite (timeline_row_of_entry all m p Hnd (Hincl p (or_introl eq_refl)) (eq_sym Hk)).
  cbn [TimelineRow.meta TimelineRow.status TimelineRow.duration]; rewrite Hk; f_equal.
  apply IH; [| exact Hrest].
  intros q Hq; apply Hincl; now right.
Qed.

(** X11. The timeline built from a projected run has one row per view, in the
    same order, with the status and the duration of that view. *)
Theorem timeline_repeats_projection (raw : PipelineRunRaw.t) :
  map (fun r => (key (TimelineRow.meta r), TimelineRow.status r, TimelineRow.duration r))
      (timeline (PipelineRun.phases (transformRun raw)))
  = map (fun p => (PhaseInfo.phase p, PhaseInfo.status p, PhaseInfo.duration_seconds p))
        (PipelineRun.phases (transformRun raw)).
Proof.
  unfold timeline; apply aligned_rows.
  - rewrite transformRun_names; exact PHASE_ORDER_NoDup.
  - apply incl_refl.
  - now rewrite transformRun_names.
Qed.

Lemma getPhaseStatus_of_entry (ps : list PhaseInfo.t) (st : string) (p : PhaseInfo.t) :
  NoDup (map PhaseInfo.phase ps) -> In p ps -> JS.truthy (Some (PhaseInfo.phase p)) = true ->
  getPhaseStatus (Some (PhaseInfo.phase p)) ps st = PhaseInfo.status p.
Proof.
  intros Hnd Hin Ht; unfold getPhaseStatus; rewrite Ht; cbn [negb].
  now rewrite (filter_by_name_unique _ ps p Hnd Hin eq_refl).
Qed.

(** X13. The column of node states the graph draws for a projected run is, from
    START to END: [running] for START while the pipeline status is "pending" and
    [completed] otherwise; the statuses of the six views in canonical order;
    [completed] for END when the pipeline status is "completed" or
    "completed_with_errors" and [pending] otherwise. *)
Theorem graph_nodes_repeat_projection (raw : PipelineRunRaw.t) (pipelineStatus : string) :
  map snd (nodeStates (PipelineRun.phases (transformRun raw)) pipelineStatus)
  = [if String.eqb pipelineStatus "pending" then PhaseStatus.running
     else PhaseStatus.completed]
    ++ map PhaseInfo.status (PipelineRun.phases (transformRun raw))
    ++ [if String.eqb pipelineStatus "completed"
           || String.eqb pipelineStatus "completed_with_errors"
        then PhaseStatus.completed else PhaseStatus.pending].
Proof.
  pose proof (transformRun_names raw) as Hnames.
  assert (Hnd : NoDup (map PhaseInfo.phase (PipelineRun.phases (transformRun raw))))
    by (rewrite Hnames; exact PHASE_ORDER_NoDup).
  assert (Hst : forall p, In p (PipelineRun.phases (transformRun raw)) ->
                          getPhaseStatus (Some (PhaseInfo.phase p))
                                         (PipelineRun.phases (transformRun raw)) pipelineStatus
                          = PhaseInfo.status p).
  { intros p Hp; apply getPhaseStatus_of_entry; [exact Hnd | exact Hp |].
    apply canonical_phase_truthy; rewrite <- Hnames; now apply in_map. }
  destruct (PipelineRun.phases (transformRun raw))
    as [| p0 [| p1 [| p2 [| p3 [| p4 [| p5 [| p6 rest]]]]]]]; try discriminate.
  injection Hnames as H0 H1 H2 H3 H4 H5.
  unfold nodeStates; cbn [map NODES node_state GraphNode.type GraphNode.phaseKey snd app].
  rewrite <- H0, <- H1, <- H2, <- H3, <- H4, <- H5.
  rewrite !Hst by (cbn; tauto).
  now destruct (String.eqb pipelineStatus "pending").
Qed.

(* ------------------------------------------------------------------ *)
(** ** The dashboard: active phase and result tabs                     *)
(* ------------------------------------------------------------------ *)

Lemma last_or_null_cons {A : Type} (a : A) (xs : list A) :
  xs <> [] -> last_or_null (a :: xs) = last_or_null xs.
Proof. destruct xs; [congruence | reflexivity]. Qed.

Lemma last_or_null_map {A B : Type} (f : A -> B) (xs : list A) :
  last_or_null (map f xs) = option_map f (last_or_null xs).
Proof.
  induction xs as [| a [| b rest] IH]; [reflexivity | reflexivity |].
  exact IH.
Qed.

Lemma last_of_filter {A : Type} (f : A -> bool) (xs : list A) :
  (filter f xs = [] /\ Forall (fun a => f a = false) xs)
  \/ exists before p after,
       xs = before ++ p :: after /\ f p = true
       /\ Forall (fun a => f a = false) after
       /\ last_or_null (filter f xs) = Some p.
Proof.
  induction xs as [| a rest IH]; [left; split; [reflexivity | constructor] |].
  destruct IH as [[Hnil Hall] | (before & p & after & -> & Fp & Hafter & Hlast)].
  - cbn [filter]; rewrite Hnil; destruct (f a) eqn:Fa.
    + right; exists [], a, rest; repeat split; assumption.
    + left; split; [reflexivity | now constructor].
  - right; exists (a :: before), p, after; repeat split; try assumption.
    cbn [filter]; destruct (f a); [| exact Hlast].
    rewrite last_or_null_cons; [exact Hlast |].
    intros E; rewrite E in Hlast; discriminate.
Qed.

(** X14. The effect that selects a phase never replaces an active phase. When none
    is active it selects the last entry of the phase list whose status is
    [completed], and leaves the selection as it is when no entry is. *)
Theorem auto_select_takes_last_completed (run : PipelineRun.t) (activePhase : option string) :
  (JS.truthy activePhase = true -> auto_select (Some run) activePhase = activePhase)
  /\ (JS.truthy activePhase = false ->
      (auto_select (Some run) activePhase = activePhase
       /\ Forall (fun p => PhaseInfo.status p <> PhaseStatus.completed) (PipelineRun.phases run))
      \/ exists before p after,
           PipelineRun.phases run = before ++ p :: after
           /\ PhaseInfo.status p = PhaseStatus.completed
           /\ Forall (fun q => PhaseInfo.status q <> PhaseStatus.completed) after
           /\ auto_select (Some run) activePhase = Some (PhaseInfo.phase p)).
Proof.
  unfold auto_select; split; intros Ht; rewrite Ht; cbn [negb].
  - now rewrite andb_false_r.
  - rewrite andb_true_r, last_or_null_map.
    set (f := fun p => match PhaseInfo.status p with
                       | PhaseStatus.completed => true
                       | _ => false
                       end).
    assert (Hf : forall l, Forall (fun a => f a = false) l ->
                           Forall (fun p => PhaseInfo.status p <> PhaseStatus.completed) l).
    { intros l; apply Forall_impl; intros a; unfold f.
      destruct (PhaseInfo.status a); congruence. }
    destruct (last_of_filter f (PipelineRun.phases run))
      as [[Hnil Hall] | (before & p & after & Hsplit & Fp & Hafter & Hlast)].
    + left; rewrite Hnil; split; [reflexivity | now apply Hf].
    + right; exists before, p, after; repeat split; [exact Hsplit | | now apply Hf |].
      * unfold f in Fp; destruct (PhaseInfo.status p); congruence.
      * rewrite Hlast; cbn [option_map].
        destruct (filter f (PipelineRun.phases run)); [discriminate | reflexivity].
Qed.

Lemma auto_select_takes_last_completed_witness :
  auto_select (Some (transformRun looped_back)) None = Some "critic_review"
  /\ auto_select (Some (transformRun looped_back)) (Some "evaluation") = Some "evaluation".
Proof.
  split; [reflexivity |].
  apply (proj1 (auto_select_takes_last_completed (transformRun looped_back)
                  (Some "evaluation"))).
  reflexivity.
Defined.

Lemma includes_member (xs : list string) (x : string) :
  includes xs x = true <-> In x xs.
Proof.
  unfold includes; rewrite existsb_exists; split.
  - intros (y & Hy & E); apply String.eqb_eq in E; now subst.
  - intros H; exists x; split; [exact H | apply String.eqb_refl].
Qed.

(** X15. The tab the results panel shows always has data: the selected phase is
    one of the available ones, the active phase when that is available and the
    first available one otherwise; nothing is selected only when nothing is
    available. *)
Theorem selected_tab_has_data (run : PipelineRun.t) (activePhase : option string) :
  match selected run activePhase with
  | Some k =>
      In k (available run)
      /\ (activePhase = Some k \/ hd_error (available run) = Some k)
  | None => available run = []
  end
  /\ (forall a, activePhase = Some a -> In a (available run) ->
                selected run activePhase = Some a).
Proof.
  assert (Hhd : match hd_error (available run) with
                | Some k => In k (available run) /\ hd_error (available run) = Some k
                | None => available run = []
                end).
  { destruct (available run) as [| k l]; [reflexivity |].
    split; [now left | reflexivity]. }
  split.
  - unfold selected; destruct activePhase as [a |].
    + destruct (JS.truthy (Some a) && includes (available run) a) eqn:E.
      * apply andb_true_iff in E; destruct E as [_ E].
        split; [now apply includes_member | now left].
      * destruct (hd_error (available run)); [| exact Hhd].
        destruct Hhd; split; [assumption | now right].
    + destruct (hd_error (available run)); [| exact Hhd].
      destruct Hhd; split; [assumption | now right].
  - intros a -> Hin; unfold selected.
    assert (Ht : JS.truthy (Some a) = true).
    { unfold available in Hin.
      destruct (PipelineRun.data_profile run), (PipelineRun.feature_engineering run),
        (PipelineRun.visualizations run), (PipelineRun.model run),
        (PipelineRun.evaluation run), (PipelineRun.critic_decisions run) as [[| d l] |];
        cbn in Hin; decompose [or] Hin; subst; try reflexivity; contradiction. }
    rewrite Ht; cbn [andb].
    now rewrite (proj2 (includes_member _ _) Hin).
Qed.

Lemma selected_tab_has_data_witness :
  selected (transformRun profiled_running) (Some "model_training") = Some "model_training"
  /\ selected (transformRun profiled_running) (Some "evaluation") = Some "data_profiling".
Proof.
  split; [| reflexivity].
  apply (proj2 (selected_tab_has_data (transformRun profiled_running)
                  (Some "model_training")) "model_training" eq_refl).
  right; left; reflexivity.
Defined.

(** X16. The available tabs follow the canonical order: they are the canonical
    phases that satisfy some test, each at most once. *)
Theorem available_tabs_in_canonical_order (run : PipelineRun.t) :
  available run = filter (includes (available run)) PHASE_ORDER
  /\ NoDup (available run).
Proof.
  assert (H : available run = filter (includes (available run)) PHASE_ORDER).
  { unfold available.
    destruct (PipelineRun.data_profile run), (PipelineRun.feature_engineering run),
      (PipelineRun.visualizations run), (PipelineRun.model run),
      (PipelineRun.evaluation run), (PipelineRun.critic_decisions run) as [[| d l] |];
      reflexivity. }
  split; [exact H |].
  rewrite H; apply NoDup_filter, PHASE_ORDER_NoDup.
Qed.

(** X17. Which tabs are available after projection is decided by the payloads of
    the snapshot alone: two snapshots with the same payloads give the same
    tabs, whatever their statuses, timings, loop counts and errors. *)
Theorem tabs_depend_on_payloads_only (raw raw' : PipelineRunRaw.t) :
  PipelineRunRaw.data_profile raw = PipelineRunRaw.data_profile raw' ->
  PipelineRunRaw.feature_engineering raw = PipelineRunRaw.feature_engineering raw' ->
  PipelineRunRaw.visualizations raw = PipelineRunRaw.visualizations raw' ->
  PipelineRunRaw.model raw = PipelineRunRaw.model raw' ->
  PipelineRunRaw.evaluation raw = PipelineRunRaw.evaluation raw' ->
  PipelineRunRaw.critic_decisions raw = PipelineRunRaw.critic_decisions raw' ->
  available (transformRun raw) = available (transformRun raw').
Proof.
  intros H1 H2 H3 H4 H5 H6.
  unfold available, transformRun.
  destruct (error_loop (rawErrors raw) _), (error_loop (rawErrors raw') _).
  cbn [PipelineRun.data_profile PipelineRun.feature_engineering PipelineRun.visualizations
       PipelineRun.model PipelineRun.evaluation PipelineRun.critic_decisions].
  now rewrite H1, H2, H3, H4, H5, H6.
Qed.

Lemma tabs_depend_on_payloads_only_witness :
  available (transformRun profiled_running) = available (transformRun profiled_failed)
  /\ available (transformRun profiled_failed) = ["data_profiling"; "model_training"].
Proof.
  split; [| reflexivity].
  apply (tabs_depend_on_payloads_only profiled_running profiled_failed); reflexivity.
Defined.

(* ------------------------------------------------------------------ *)
(** ** The model panel: candidate names and the best candidate         *)
(* ------------------------------------------------------------------ *)

Lemma or_default_nonempty (s : option string) (d : string) :
  d <> EmptyString -> or_default s d <> EmptyString.
Proof.
  intros Hd; unfold or_default, JS.truthy.
  destruct s as [v |]; [| exact Hd].
  destruct (String.eqb_spec v EmptyString); cbn [negb]; assumption.
Qed.

Lemma candidate_name_nonempty (c : ModelCandidate.t) : getCandidateName c <> EmptyString.
Proof.
  unfold getCandidateName; repeat apply or_default_nonempty; discriminate.
Qed.

Lemma find_first {A : Type} (f : A -> bool) (l : list A) (x : A) :
  find f l = Some x ->
  exists before after,
    l = before ++ x :: after /\ f x = true /\ Forall (fun y => f y = false) before.
Proof.
  induction l as [| a rest IH]; cbn [find]; [discriminate |].
  destruct (f a) eqn:Fa.
  - intros [= <-]; exists [], rest; repeat split; [exact Fa | constructor].
  - intros H; destruct (IH H) as (before & after & -> & Fx & Hb).
    exists (a :: before), after; repeat split; [exact Fx | now constructor].
Qed.

(** X18. The best candidate the panel shows is a member of the candidate list:
    the first candidate whose displayed name is the best model name, with no
    candidate of that name before it, when there is one; the first of the list
    otherwise, and then no candidate has that name. None is shown only when the
    list is absent or empty. *)
Theorem best_candidate_is_a_candidate (model : ModelResult.t) :
  let candidates :=
    match ModelResult.candidates model with Some l => l | None => [] end in
  match best_candidate model with
  | Some c =>
      In c candidates
      /\ ((exists before after,
             candidates = before ++ c :: after
             /\ Some (getCandidateName c) = ModelResult.best_model_name model
             /\ Forall (fun d => Some (getCandidateName d)
                                  <> ModelResult.best_model_name model) before)
          \/ (hd_error candidates = Some c
              /\ Forall (fun d => Some (getCandidateName d) <> ModelResult.best_model_name model)
                        candidates))
  | None => candidates = []
  end.
Proof.
  unfold best_candidate; cbv zeta.
  set (cs := match ModelResult.candidates model with Some l => l | None => [] end).
  set (bestName := or_default (ModelResult.best_model_name model) EmptyString).
  assert (Hname : forall d, getCandidateName d = bestName <->
                            Some (getCandidateName d) = ModelResult.best_model_name model).
  { intros d; unfold bestName, or_default, JS.truthy.
    pose proof (candidate_name_nonempty d) as Hd.
    destruct (ModelResult.best_model_name model) as [b |]; [| split; congruence].
    destruct (String.eqb_spec b EmptyString); cbn [negb]; split; congruence. }
  destruct (find _ cs) as [c |] eqn:Hfind.
  - pose proof (find_some _ _ Hfind) as [Hin _].
    destruct (find_first _ _ _ Hfind) as (before & after & Hsplit & E & Hb).
    apply String.eqb_eq in E; split; [exact Hin | left].
    exists before, after; repeat split; [exact Hsplit | now apply Hname |].
    revert Hb; apply Forall_impl; intros d Hd N.
    apply Hname, String.eqb_eq in N; congruence.
  - assert (Hall : Forall (fun d => Some (getCandidateName d)
                                    <> ModelResult.best_model_name model) cs).
    { apply Forall_forall; intros d Hd E.
      apply Hname, String.eqb_eq in E.
      pose proof (find_none _ _ Hfind d Hd) as N; cbv beta in N; congruence. }
    destruct cs as [| c rest]; [reflexivity |].
    split; [now left | right; split; [reflexivity | exact Hall]].
Qed.

(** Of two candidates with the name of the best model, the earlier one is
    shown. *)
Lemma best_candidate_is_a_candidate_witness :
  option_map ModelCandidate.accuracy (best_candidate twin_candidates)
  = Some (JS.num 0.5%float)
  /\ match best_candidate twin_candidates with
     | Some c =>
         In c (match ModelResult.candidates twin_candidates with Some l => l | None => [] end)
     | None => False
     end.
Proof.
  split; [reflexivity |].
  pose proof (best_candidate_is_a_candidate twin_candidates) as H; cbv zeta in H.
  destruct (best_candidate twin_candidates) as [c |]; [exact (proj1 H) | discriminate H].
Defined.

(** X19. Without a best model name (absent or empty) the first candidate is the
    one shown as best: the displayed name of a candidate is never empty, so
    none matches. *)
Theorem unnamed_best_model_shows_first_candidate (model : ModelResult.t) :
  ModelResult.best_model_name model = None
  \/ ModelResult.best_model_name model = Some EmptyString ->
  best_candidate model
  = hd_error (match ModelResult.candidates model with Some l => l | None => [] end).
Proof.
  intros H; unfold best_candidate.
  assert (E : or_default (ModelResult.best_model_name model) EmptyString = EmptyString)
    by (destruct H as [-> | ->]; reflexivity).
  rewrite E.
  destruct (find _ _) as [c |] eqn:Hfind; [| reflexivity].
  apply find_some in Hfind; destruct Hfind as [_ N].
  apply String.eqb_eq in N; now apply candidate_name_nonempty in N.
Qed.

Lemma unnamed_best_model_shows_first_candidate_witness :
  option_map getCandidateName (best_candidate unnamed_best) = Some "random_forest".
Proof.
  rewrite (unnamed_best_model_shows_first_candidate unnamed_best); [reflexivity |].
  left; reflexivity.
Defined.

(* ------------------------------------------------------------------ *)
(** ** The elapsed-time label                                          *)
(* ------------------------------------------------------------------ *)

Lemma read_digits_written (d : Decimal.uint) (c : ascii) (r : string) :
  digit_of c = None ->
  read_digits (NilEmpty.string_of_uint d ++ String c r) = (d, String c r).
Proof.
  intros Hc; induction d; cbn [NilEmpty.string_of_uint String.append read_digits];
    try (cbn [digit_of]; rewrite IHd; reflexivity).
  now rewrite Hc.
Qed.

Lemma number_text_nonneg (z : Z) :
  (0 <= z)%Z ->
  exists d, Z.to_int z = Decimal.Pos d /\ number_text z = NilEmpty.string_of_uint d.
Proof.
  intros Hz; unfold number_text; destruct z as [| p | p]; [| | lia].
  - exists (Decimal.D0 Decimal.Nil); split; reflexivity.
  - exists (Pos.to_uint p); split; [reflexivity |].
    cbn [Z.to_int NilZero.string_of_int]; unfold NilZero.string_of_uint.
    pose proof (Unsigned.to_uint_nonnil p) as Hn.
    now destruct (Pos.to_uint p).
Qed.

Lemma read_elapsed_formatElapsed (s : Z) :
  (0 <= s)%Z -> read_elapsed (formatElapsed s) = Some s.
Proof.
  intros Hs; unfold formatElapsed, read_elapsed.
  assert (Hm : (0 <= s / 60)%Z) by (apply Z.div_pos; lia).
  assert (Hsec : (0 <= Z.rem s 60)%Z) by (apply Z.rem_nonneg; lia).
  destruct (number_text_nonneg _ Hm) as (dm & Em & Tm).
  destruct (number_text_nonneg _ Hsec) as (ds & Es & Ts).
  assert (Vm : Z.of_int (Decimal.Pos dm) = (s / 60)%Z) by (rewrite <- Em; apply DecimalZ.of_to).
  assert (Vs : Z.of_int (Decimal.Pos ds) = Z.rem s 60) by (rewrite <- Es; apply DecimalZ.of_to).
  pose proof (Z.rem_mod_nonneg s 60 Hs ltac:(lia)) as Hrem.
  pose proof (Z.div_mod s 60 ltac:(lia)) as Hdiv.
  destruct (Z.ltb_spec 0 (s / 60)) as [Hpos | Hzero].
  - rewrite Tm, Ts.
    change ("m " ++ NilEmpty.string_of_uint ds ++ "s")%string
      with (String "m" (String " " (NilEmpty.string_of_uint ds ++ "s")))%string.
    rewrite read_digits_written by reflexivity.
    rewrite read_digits_written by reflexivity.
    rewrite String.eqb_refl, Vm, Vs; f_equal; lia.
  - rewrite Ts, read_digits_written by reflexivity.
    rewrite Vs; f_equal; lia.
Qed.

(** X20. Two different elapsed times, whole seconds from zero up, never get the
    same label. *)
Theorem elapsed_labels_are_distinct (a b : Z) :
  (0 <= a < 2 ^ 53)%Z -> (0 <= b < 2 ^ 53)%Z ->
  formatElapsed a = formatElapsed b -> a = b.
Proof.
  intros Ha Hb E.
  assert (H : Some a = Some b); [| now injection H].
  rewrite <- (read_elapsed_formatElapsed a), <- (read_elapsed_formatElapsed b) by lia.
  now rewrite E.
Qed.

Lemma elapsed_labels_are_distinct_witness :
  formatElapsed 59 = "59s" /\ formatElapsed 60 = "1m 0s" /\ formatElapsed 3725 = "62m 5s"
  /\ (125 = 2 * 60 + 5)%Z.
Proof.
  split; [reflexivity | split; [reflexivity | split; [reflexivity |]]].
  apply (elapsed_labels_are_distinct 125 (2 * 60 + 5)).
  - split; [discriminate | reflexivity].
  - split; [discriminate | reflexivity].
  - reflexivity.
Defined.

(* ------------------------------------------------------------------ *)
(** ** The merged metrics of the evaluation panel                      *)
(* ------------------------------------------------------------------ *)

Lemma get_set_property (o : JS.object) (k k' : string) (v : JS.value) :
  JS.get (set_property o k v) k' = if String.eqb k k' then v else JS.get o k'.
Proof.
  induction o as [| [k0 v0] rest IH]; cbn [set_property JS.get].
  - now destruct (String.eqb k k').
  - destruct (String.eqb_spec k0 k) as [-> | Hne]; cbn [JS.get].
    + now destruct (String.eqb k k').
    + rewrite IH.
      destruct (String.eqb_spec k0 k') as [-> | _]; [| reflexivity].
      destruct (String.eqb_spec k k'); [congruence | reflexivity].
Qed.

Lemma keys_set_property (o : JS.object) (k : string) (v : JS.value) :
  NoDup (map fst o) -> NoDup (map fst (set_property o k v))
  /\ (forall k', In k' (map fst (set_property o k v)) <-> k' = k \/ In k' (map fst o)).
Proof.
  induction o as [| [k0 v0] rest IH]; intros Hnd; cbn [set_property map fst].
  - split; [repeat constructor; intros [] | intros k'; cbn; intuition].
  - inversion Hnd as [| ? ? Hk0 Hrest]; subst.
    destruct (String.eqb_spec k0 k) as [-> | Hne]; cbn [map fst].
    + split; [exact Hnd | intros k'; cbn; intuition].
    + destruct (IH Hrest) as [Hnd' Hin]; split.
      * constructor; [| exact Hnd'].
        intros H; apply Hin in H; destruct H; [congruence | contradiction].
      * intros k'; cbn [In]; rewrite Hin; intuition.
Qed.

Lemma get_spread (target source : JS.object) (k : string) :
  NoDup (map fst source) ->
  JS.get (spread target source) k
  = if has_property source k then JS.get source k else JS.get target k.
Proof.
  unfold spread; revert target; induction source as [| [k1 v1] rest IH];
    intros target Hnd; [reflexivity |].
  inversion Hnd as [| ? ? Hk1 Hrest]; subst.
  cbn [fold_left fst snd has_property existsb JS.get]; rewrite (IH _ Hrest).
  fold (has_property rest k); rewrite get_set_property.
  destruct (String.eqb_spec k1 k) as [-> | _]; cbn [orb]; [| reflexivity].
  destruct (has_property rest k) eqn:E; [| reflexivity].
  exfalso; apply Hk1; unfold has_property in E.
  apply existsb_exists in E; destruct E as ([k2 v2] & Hin & E).
  apply String.eqb_eq in E; cbn in E; subst k2.
  now apply (in_map fst) in Hin.
Qed.

Lemma get_without_property (o : JS.object) (k : string) :
  has_property o k = false -> JS.get o k = JS.undefined.
Proof.
  unfold has_property; induction o as [| [k0 v0] rest IH]; [reflexivity |].
  cbn [existsb fst JS.get]; intros E; apply orb_false_iff in E; destruct E as [-> E].
  now apply IH.
Qed.

Lemma keys_spread (target source : JS.object) :
  NoDup (map fst target) -> NoDup (map fst (spread target source)).
Proof.
  unfold spread; revert target; induction source as [| [k1 v1] rest IH];
    intros target Hnd; [exact Hnd |].
  cbn [fold_left]; apply IH; now apply keys_set_property.
Qed.

(** X21. In the merged metrics a value of [metrics] takes precedence over the
    value [test_metrics] has under the same name, and the [cv_mean] and [cv_std]
    fields of the evaluation, when they are numbers, take precedence over both;
    the merged object has each name once. *)
Theorem merged_metrics_precedence (evaluation : Evaluation.t) (k : string) :
  let metrics := match Evaluation.metrics evaluation with Some m => m | None => [] end in
  let test_metrics :=
    match Evaluation.test_metrics evaluation with Some m => m | None => [] end in
  NoDup (map fst metrics) -> NoDup (map fst test_metrics) ->
  JS.get (rawMetrics evaluation) k
  = (if String.eqb k "cv_std" && not_nullish (Evaluation.cv_std evaluation)
     then Evaluation.cv_std evaluation
     else if String.eqb k "cv_mean" && not_nullish (Evaluation.cv_mean evaluation)
     then Evaluation.cv_mean evaluation
     else if has_property metrics k then JS.get metrics k
     else JS.get test_metrics k)
  /\ NoDup (map fst (rawMetrics evaluation)).
Proof.
  cbv zeta; intros Hm Ht; unfold rawMetrics; cbv zeta.
  set (ms := match Evaluation.metrics evaluation with Some m => m | None => [] end) in *.
  set (ts := match Evaluation.test_metrics evaluation with Some m => m | None => [] end) in *.
  assert (Hget : JS.get (spread (spread [] ts) ms) k
                 = if has_property ms k then JS.get ms k else JS.get ts k).
  { rewrite (get_spread _ ms k Hm), (get_spread [] ts k Ht).
    destruct (has_property ms k); [reflexivity |].
    destruct (has_property ts k) eqn:E; [reflexivity |].
    now rewrite (get_without_property ts k E). }
  assert (Hnd : NoDup (map fst (spread (spread [] ts) ms)))
    by (apply keys_spread, keys_spread; constructor).
  split.
  - destruct (not_nullish (Evaluation.cv_std evaluation)),
             (not_nullish (Evaluation.cv_mean evaluation));
      rewrite ?get_set_property, ?andb_true_r, ?andb_false_r, ?Hget;
      rewrite ?(String.eqb_sym k "cv_std"), ?(String.eqb_sym k "cv_mean");
      try reflexivity.
  - destruct (not_nullish (Evaluation.cv_std evaluation)),
             (not_nullish (Evaluation.cv_mean evaluation));
      repeat (apply keys_set_property); exact Hnd.
Qed.

Lemma merged_metrics_precedence_witness :
  JS.get (rawMetrics two_metric_maps) "accuracy" = JS.num 0.875%float
  /\ JS.get (rawMetrics two_metric_maps) "cv_mean" = JS.num 0.625%float
  /\ map fst (rawMetrics two_metric_maps) = ["accuracy"; "cv_mean"; "recall"].
Proof.
  split; [| split; reflexivity].
  apply (merged_metrics_precedence two_metric_maps "accuracy").
  - repeat constructor; cbn; intuition discriminate.
  - repeat constructor; cbn; intuition discriminate.
Defined.

(* ------------------------------------------------------------------ *)
(** ** Timings and the statuses they support                           *)
(* ------------------------------------------------------------------ *)

Lemma sum_critic_app (o o' : JS.object) (acc : float) :
  sum_critic (o ++ o') acc = sum_critic o' (sum_critic o acc).
Proof.
  revert acc; induction o as [| [k v] rest IH]; intros acc; [reflexivity |].
  cbn [app sum_critic]; apply IH.
Qed.

Lemma get_app_other (o : JS.object) (k k' : string) (v : JS.value) :
  k <> k' -> JS.get (o ++ [(k, v)]) k' = JS.get o k'.
Proof.
  intros Hne; induction o as [| [k0 v0] rest IH]; cbn [app JS.get].
  - now destruct (String.eqb_spec k k').
  - now rewrite IH.
Qed.

(** X9. A timing entry recorded after the others under a key that starts with
    "critic_review_" (numbered or not) adds its seconds to the critic total; an
    entry under any other key except the bare "critic_review" leaves the total
    as it was. *)
Theorem critic_total_grows_by_iteration
        (raw : PipelineRunRaw.t) (o : JS.object) (k : string) (x : float) :
  k <> "critic_review" ->
  criticTotal (with_timings raw (Some (o ++ [(k, JS.num x)])))
  = if String.prefix "critic_review_" k
    then PrimFloat.add (criticTotal (with_timings raw (Some o))) x
    else criticTotal (with_timings raw (Some o)).
Proof.
  intros Hk; unfold criticTotal.
  change (timings (with_timings raw (Some (o ++ [(k, JS.num x)])))) with (o ++ [(k, JS.num x)]).
  change (timings (with_timings raw (Some o))) with o.
  rewrite (get_app_other o k "critic_review" (JS.num x) Hk).
  rewrite sum_critic_app; cbn [sum_critic JS.is_number JS.add_assign].
  unfold JS.startsWith; rewrite andb_true_r.
  now destruct (String.prefix "critic_review_" k).
Qed.

Lemma critic_total_grows_by_iteration_witness :
  criticTotal (with_timings two_critic_rounds
                 (Some (timings two_critic_rounds ++ [("critic_review_3", JS.num 1.25%float)])))
  = 6.75%float.
Proof.
  rewrite (critic_total_grows_by_iteration two_critic_rounds
             (timings two_critic_rounds) "critic_review_3" 1.25%float).
  - reflexivity.
  - discriminate.
Defined.

(** X10. A canonical phase with a recorded duration above zero is never shown as
    [pending], neither after classification nor in the output. *)
Theorem recorded_phase_is_not_pending (raw : PipelineRunRaw.t) (k : PhaseKey) (idx : nat) :
  nth_error PHASE_ORDER idx = Some k ->
  PrimFloat.ltb 0 (aggregated raw k) = true ->
  phase_status (classified_phases raw) k <> Some PhaseStatus.pending
  /\ phase_status (PipelineRun.phases (transformRun raw)) k <> Some PhaseStatus.pending.
Proof.
  intros Hk Hpos.
  assert (Hrun : hasRun raw k = true) by (rewrite hasRun_aggregated, Hpos; reflexivity).
  assert (Hcl : classify raw k (Z.of_nat idx) <> PhaseStatus.pending).
  { unfold classify; rewrite Hrun.
    destruct (isCurrent raw k && isRunning raw); [discriminate |].
    destruct (isLooping raw && _ && _ && _); discriminate. }
  rewrite (classified_status raw k idx Hk), (output_status raw k idx Hk).
  split; [congruence |].
  unfold overridden; destruct (tagged (rawErrors raw) k); [discriminate | congruence].
Qed.

Lemma recorded_phase_is_not_pending_witness :
  phase_status (PipelineRun.phases (transformRun looped_back)) "evaluation"
  = Some PhaseStatus.will_rerun
  /\ phase_status (PipelineRun.phases (transformRun looped_back)) "evaluation"
     <> Some PhaseStatus.pending.
Proof.
  split; [reflexivity |].
  apply (recorded_phase_is_not_pending looped_back "evaluation" 4); reflexivity.
Defined.

(* ------------------------------------------------------------------ *)
(** ** The status the graph and the timeline show for a phase          *)
(* ------------------------------------------------------------------ *)

Lemma status_of_last_match (phases : list PhaseInfo.t) (k : PhaseKey) :
  status_of_last_entry phases k
    (match last_or_null (filter (fun p => String.eqb (PhaseInfo.phase p) k) phases) with
     | Some p => PhaseInfo.status p
     | None => PhaseStatus.pending
     end).
Proof.
  set (f := fun p => String.eqb (PhaseInfo.phase p) k).
  assert (Hf : forall l, Forall (fun a => f a = false) l ->
                         Forall (fun q => PhaseInfo.phase q <> k) l).
  { intros l; apply Forall_impl; intros a Ha E; unfold f in Ha.
    rewrite E, String.eqb_refl in Ha; discriminate. }
  destruct (last_of_filter f phases)
    as [[Hnil Hall] | (before & p & after & Hsplit & Fp & Hafter & Hlast)].
  - left; rewrite Hnil; split; [now apply Hf | reflexivity].
  - right; exists before, p, after; rewrite Hlast.
    repeat split; [exact Hsplit | now apply String.eqb_eq | now apply Hf].
Qed.

(** X12. Whatever the phase list, repeated or missing entries included, the
    graph and the timeline show the same status for every phase of the metadata
    table: the status of the last entry of the list for that phase, and
    [pending] when the list has no entry for it. *)
Theorem graph_and_timeline_agree
        (phases : list PhaseInfo.t) (pipelineStatus : string) (m : PhaseMeta) :
  In m PHASE_META ->
  status_of_last_entry phases (key m) (getPhaseStatus (Some (key m)) phases pipelineStatus)
  /\ status_of_last_entry phases (key m) (TimelineRow.status (timeline_row phases m))
  /\ getPhaseStatus (Some (key m)) phases pipelineStatus
     = TimelineRow.status (timeline_row phases m).
Proof.
  intros Hm.
  assert (Ht : JS.truthy (Some (key m)) = true).
  { cbn [PHASE_META In] in Hm.
    decompose [or] Hm; subst; try reflexivity; contradiction. }
  unfold getPhaseStatus, timeline_row; cbn [TimelineRow.status]; rewrite Ht; cbn [negb].
  repeat split; apply status_of_last_match.
Qed.

Lemma graph_and_timeline_agree_witness :
  getPhaseStatus (Some "evaluation") repeated_entries "running" = PhaseStatus.running
  /\ status_of_last_entry repeated_entries "evaluation"
       (getPhaseStatus (Some "evaluation") repeated_entries "running").
Proof.
  split; [reflexivity |].
  apply (graph_and_timeline_agree repeated_entries "running"
           {| key := "evaluation";
              label := "Evaluator";
              icon := "check-circle-2";
              description := "Evaluating model performance and generalization";
              color := "from-rose-500 to-pink-600" |}).
  cbn; tauto.
Defined.
